(** * Mint statistics hook: aggregation, fallback and caching

    Shallow embedding of [src/src/components/useMintStats.tsx].

    The hook keeps a React state cell holding a [MintStats] snapshot,
    seeds it from [localStorage], and runs [fetchMintStats] on mount and
    on every interval tick.  [fetchMintStats] is asynchronous, mutates two
    local variables, calls the network, writes the cache and calls
    [setStats]; exceptions are caught by two nested [try]/[catch] blocks.
    All of this is modelled by a small state-and-exception monad [Eff]
    over the local frame and the observable machine state.  Cycles run
    one after the other: a cycle ends before the next tick starts.  The
    cache write can be refused by the store ([fetchMintStats_with]);
    [fetchMintStats] is the call on a store that accepts it. *)

From stdpp Require Import base gmap strings list.
From Stdlib Require Import ZArith Lia.

Local Open Scope Z_scope.

(** ** Data *)

(** [interface MintStats]. [error : string | null]. *)
Record MintStats := mkMintStats {
  totalMinted : Z;
  recentMints : list string;
  isLoading : bool;
  error : option string;
}.

(** The record that line 154 serialises into [localStorage]. *)
Record CacheEntry := mkCacheEntry {
  cached_totalMinted : Z;
  cached_recentMints : list string;
  timestamp : Z;
}.

(** A [localStorage] value, seen through [JSON.parse]: either the
    serialisation of a full cache record as line 154 writes it (parsing
    gives the record back), or a string on which the initialiser ends in
    its default state (empty, not JSON, [null], or an object without a
    [timestamp]). Objects that carry a fresh [timestamp] but lack the
    count or the names, which no line of the hook writes, are outside
    this type. *)
Inductive StoredItem :=
| Serialized (e : CacheEntry)
| Malformed (raw : string).

(** [listingType === "L1"] against everything else. *)
Inductive ListingType := L1 | L2.

(** The three values read from [useAppConfig()]. An absent [listedName]
    is the empty string (both are falsy). *)
Record AppConfig := mkAppConfig {
  listingChainId : option Z;
  listedName : string;
  listingType : ListingType;
}.

(** An object with a [name] property, as found in [domains], [subdomains],
    [items] and the [getSubnames] result. A missing name is [""]. *)
Record Subname := mkSubname { name : string }.

(** [data.domain] of a subgraph response. *)
Record DomainObj := mkDomainObj {
  subdomainCount : option Z;
  subdomains : option (list Subname);
}.

(** [response.data?.data] of a subgraph response; [domains] is [None]
    when the property is absent or is not an array. *)
Record GraphData := mkGraphData {
  domain : option DomainObj;
  domains : option (list Subname);
}.

(** [data] of the indexer response, [{ items, totalItems }]. *)
Record IndexerData := mkIndexerData {
  items : option (list Subname);
  totalItems : option Z;
}.

(** Outcome of an awaited promise. *)
Inductive Reply (A : Type) :=
| Resolved (a : A)
| Rejected.
Arguments Resolved {A} a.
Arguments Rejected {A}.

(** The calls [fetchMintStats] can make, with the parameters it sends. *)
Inductive Request :=
| SubgraphDomains (parent : string) (first : Z) (orderBy orderDirection : string)
| SubgraphNested (parent : string) (first : Z) (orderBy orderDirection : string)
| GetSubnames (ensName searchString orderBy orderDirection : string) (pageSize : Z)
| IndexerNodes (parentName : string) (limit : Z).

(** What the outside world answers during one run of [fetchMintStats]:
    [viem]'s [namehash(normalize(_))] ([None] when [normalize] throws),
    the two subgraph queries, the ENS client, the indexer and the
    clock. *)
Record Network := mkNetwork {
  namehash_normalize : string -> option string;
  subgraph_domains : string -> Z -> Reply (option GraphData);
  subgraph_nested : string -> Z -> Reply (option GraphData);
  ens_getSubnames : string -> Z -> Reply (option (list Subname));
  indexer_nodes : string -> Z -> Reply IndexerData;
  date_now : Z;
}.

(** Observable state: the React state cell, every snapshot handed to
    consumers so far (oldest first), [localStorage], and the requests
    sent so far (oldest first). *)
Record Machine := mkMachine {
  react_state : MintStats;
  renders : list MintStats;
  localStorage : gmap string StoredItem;
  requests : list Request;
}.

(** The two [let] variables of [fetchMintStats]. *)
Record Frame := mkFrame {
  var_totalMinted : Z;
  var_recentMints : list string;
}.

(** ** JavaScript truthiness *)

Definition truthy_string (s : string) : bool :=
  match s with
  | EmptyString => false
  | String _ _ => true
  end.

Definition truthy_number (z : Z) : bool := negb (z =? 0).

Definition truthy_opt_number (o : option Z) : bool :=
  match o with
  | Some z => truthy_number z
  | None => false
  end.

(** ** Effects *)

Inductive Completion (A : Type) :=
| Normal (a : A)
| Thrown.
Arguments Normal {A} a.
Arguments Thrown {A}.

Definition Eff (A : Type) : Type :=
  Frame -> Machine -> Completion A * Frame * Machine.

Definition ret {A} (a : A) : Eff A := fun fr m => (Normal a, fr, m).

Definition bind {A B} (c : Eff A) (k : A -> Eff B) : Eff B :=
  fun fr m =>
    match c fr m with
    | (Normal a, fr', m') => k a fr' m'
    | (Thrown, fr', m') => (Thrown, fr', m')
    end.

Definition throw {A} : Eff A := fun fr m => (Thrown, fr, m).

(** [try { body } catch { handler }]: assignments and effects made by
    [body] before it throws stay. *)
Definition try_catch (body handler : Eff unit) : Eff unit :=
  fun fr m =>
    match body fr m with
    | (Normal u, fr', m') => (Normal u, fr', m')
    | (Thrown, fr', m') => handler fr' m'
    end.

Declare Scope eff_scope.
Delimit Scope eff_scope with eff.
Notation "x <- c ;; k" := (bind c (fun x => k))
  (at level 100, c at next level, right associativity) : eff_scope.
Notation "c ;; k" := (bind c (fun _ => k))
  (at level 100, right associativity) : eff_scope.
Notation "'when' b 'then' c" := (if b then c else ret tt)
  (at level 99, b at level 9, c at level 99) : eff_scope.

Definition read_totalMinted : Eff Z :=
  fun fr m => (Normal (var_totalMinted fr), fr, m).

Definition read_recentMints : Eff (list string) :=
  fun fr m => (Normal (var_recentMints fr), fr, m).

Definition assign_totalMinted (z : Z) : Eff unit :=
  fun fr m => (Normal tt, mkFrame z (var_recentMints fr), m).

Definition assign_recentMints (l : list string) : Eff unit :=
  fun fr m => (Normal tt, mkFrame (var_totalMinted fr) l, m).

(** The machine after [setStats(f)]: the state cell is replaced and the
    new snapshot is rendered. *)
Definition rendered (f : MintStats -> MintStats) (m : Machine) : Machine :=
  mkMachine (f (react_state m)) (renders m ++ [f (react_state m)])
    (localStorage m) (requests m).

(** [setStats(f)]; [setStats(v)] is [setStats (fun _ => v)]. *)
Definition setStats (f : MintStats -> MintStats) : Eff unit :=
  fun fr m => (Normal tt, fr, rendered f m).

(** [localStorage.setItem(key, v)]. The call throws when the store
    refuses the write (quota exceeded, storage blocked); [accepted] tells
    which of the two happens. *)
Definition localStorage_setItem (accepted : bool) (key : string)
    (v : StoredItem) : Eff unit :=
  if accepted then
    fun fr m =>
      (Normal tt, fr,
       mkMachine (react_state m) (renders m) (<[key := v]> (localStorage m))
         (requests m))
  else throw.

(** The machine after one more request went out. *)
Definition sent (m : Machine) (req : Request) : Machine :=
  mkMachine (react_state m) (renders m) (localStorage m) (requests m ++ [req]).

(** [await] of a call: the request is sent, then the promise resolves
    or its rejection is thrown. *)
Definition await {A} (req : Request) (r : Reply A) : Eff A :=
  fun fr m =>
    match r with
    | Resolved a => (Normal a, fr, sent m req)
    | Rejected => (Thrown, fr, sent m req)
    end.

(** A synchronous call that may throw. *)
Definition call {A} (o : option A) : Eff A :=
  match o with
  | Some a => ret a
  | None => throw
  end.

(** ** The hook *)

Local Open Scope eff_scope.

(** [const limit = 100]. *)
Definition limit : Z := 100.

(** The key [`mintStats-${listedName}`]. *)
Definition cache_key (listedName : string) : string :=
  "mintStats-" +:+ listedName.

(** The state the initialiser falls back to (lines 40-45). *)
Definition empty_loading : MintStats := mkMintStats 0 [] true None.

(** The lazy initialiser passed to [useState] (lines 19-46). Every
    exception inside it is caught and leads to the default state. *)
Definition useState_init (listedName : string)
    (storage : gmap string StoredItem) (now : Z) : MintStats :=
  if truthy_string listedName then
    match storage !! cache_key listedName with
    | Some (Serialized parsed) =>
        if now - timestamp parsed <? 3600000 then
          mkMintStats (cached_totalMinted parsed) (cached_recentMints parsed)
            false None
        else empty_loading
    | Some (Malformed _) => empty_loading
    | None => empty_loading
    end
  else empty_loading.

(** [l.slice(0, limit).map(x => x.name)]. *)
Definition slice_names (l : list Subname) : list string :=
  map name (take (Z.to_nat limit) l).

(** [data?.domain?.subdomainCount]. *)
Definition graph_subdomainCount (data : option GraphData) : option Z :=
  d ← data; o ← domain d; subdomainCount o.

(** [data?.domains], when it is an array. *)
Definition graph_domains (data : option GraphData) : option (list Subname) :=
  d ← data; domains d.

(** [nestedResponse.data?.data?.domain?.subdomains], when it is an array. *)
Definition graph_nested_subdomains (data : option GraphData)
  : option (list Subname) :=
  d ← data; o ← domain d; subdomains o.

(** Lines 66-112: the body of the inner [try]. *)
Definition subgraph_query (cfg : AppConfig) (net : Network) : Eff unit :=
  parentNode <- call (namehash_normalize net (listedName cfg)) ;;
  data <- await (SubgraphDomains parentNode limit "createdAt" "desc")
            (subgraph_domains net parentNode limit) ;;
  match graph_subdomainCount data with
  | Some c => when (truthy_number c) then assign_totalMinted c
  | None => ret tt
  end ;;
  match graph_domains data with
  | Some ds =>
      assign_recentMints
        (map name (List.filter (fun sub => truthy_string (name sub)) ds))
  | None => ret tt
  end ;;
  t <- read_totalMinted ;;
  r <- read_recentMints ;;
  when ((t >? 0) && (length r =? 0)%nat) then
    (nested <- await (SubgraphNested parentNode limit "createdAt" "desc")
                 (subgraph_nested net parentNode limit) ;;
     match graph_nested_subdomains nested with
     | Some nestedDomains => assign_recentMints (map name nestedDomains)
     | None => ret tt
     end).

(** Lines 118-133: the fallback inside the inner [catch], with its own
    [try]/[catch] that only logs. *)
Definition ens_client_fallback (cfg : AppConfig) (net : Network) : Eff unit :=
  try_catch
    (subnames <- await (GetSubnames (listedName cfg) "" "createdAt" "desc" limit)
                   (ens_getSubnames net (listedName cfg) limit) ;;
     match subnames with
     | Some l =>
         when (0 <? length l)%nat then
           (assign_recentMints (slice_names l) ;;
            assign_totalMinted (Z.of_nat (length l)))
     | None => ret tt
     end)
    (ret tt).

(** Lines 137-149: the indexer branch. *)
Definition indexer_query (cfg : AppConfig) (net : Network) : Eff unit :=
  data <- await (IndexerNodes (listedName cfg) limit)
            (indexer_nodes net (listedName cfg) limit) ;;
  assign_totalMinted
    (match totalItems data with
     | Some z => if truthy_number z then z else 0
     | None => 0
     end) ;;
  assign_recentMints
    (match items data with
     | Some l => slice_names l
     | None => []
     end).

(** Lines 152-166: cache write and final [setStats]. *)
Definition publish (accepted : bool) (cfg : AppConfig) (net : Network)
  : Eff unit :=
  t <- read_totalMinted ;;
  r <- read_recentMints ;;
  when (t >? 0) then
    localStorage_setItem accepted (cache_key (listedName cfg))
      (Serialized (mkCacheEntry t r (date_now net))) ;;
  setStats (fun _ => mkMintStats t r false None).

(** Lines 62-150: the adapters chosen by [listingType]. *)
Definition adapters (cfg : AppConfig) (net : Network) : Eff unit :=
  match listingType cfg with
  | L1 => try_catch (subgraph_query cfg net) (ens_client_fallback cfg net)
  | L2 => indexer_query cfg net
  end.

(** The updater of line 55, [prev => ({ ...prev, isLoading: true, error: null })]. *)
Definition show_loading (prev : MintStats) : MintStats :=
  mkMintStats (totalMinted prev) (recentMints prev) true None.

(** The updater of lines 170-174. *)
Definition show_failure (prev : MintStats) : MintStats :=
  mkMintStats (totalMinted prev) (recentMints prev) false
    (Some "Failed to fetch mint statistics"%string).

(** Lines 49-176. [stats] is the variable the closure captured when the
    effect ran; [setStats] updaters see the current state cell. *)
Definition fetchMintStats_run (accepted : bool) (cfg : AppConfig)
    (stats : MintStats) (net : Network) : Eff unit :=
  if negb (truthy_opt_number (listingChainId cfg))
     || negb (truthy_string (listedName cfg))
  then ret tt
  else
    try_catch
      (when (totalMinted stats =? 0) then setStats show_loading ;;
       assign_totalMinted 0 ;;
       assign_recentMints [] ;;
       adapters cfg net ;;
       publish accepted cfg net)
      (setStats show_failure).

(** One whole call of [fetchMintStats], from a machine to the machine it
    leaves; the function never throws to its caller. *)
Definition fetchMintStats_with (accepted : bool) (cfg : AppConfig)
    (stats : MintStats) (net : Network) (m : Machine) : Machine :=
  snd (fetchMintStats_run accepted cfg stats net (mkFrame 0 []) m).

(** The call on a store that accepts the cache write. This is the case
    every statement below is about, unless it names
    [fetchMintStats_with]. *)
Definition fetchMintStats (cfg : AppConfig) (stats : MintStats)
    (net : Network) (m : Machine) : Machine :=
  fetchMintStats_with true cfg stats net m.

(** The hook instance: the [stats] value captured by the effect closure
    (the effect reruns only when the configuration changes, so this is
    the value of the render that mounted it) and the machine. *)
Record Hook := mkHook {
  closure_stats : MintStats;
  machine : Machine;
}.

(** First render: the initialiser seeds the state cell. *)
Definition useMintStats_mount (cfg : AppConfig)
    (storage : gmap string StoredItem) (now : Z) : Hook :=
  let s := useState_init (listedName cfg) storage now in
  mkHook s (mkMachine s [s] storage []).

(** One call of [fetchMintStats], on mount or by [setInterval]. *)
Definition refresh (cfg : AppConfig) (h : Hook) (net : Network) : Hook :=
  mkHook (closure_stats h) (fetchMintStats cfg (closure_stats h) net (machine h)).

(** The effect: one call at once, then one per interval tick; each call
    meets its own [Network]. *)
Definition useMintStats (cfg : AppConfig) (storage : gmap string StoredItem)
    (now : Z) (cycles : list Network) : Hook :=
  foldl (refresh cfg) (useMintStats_mount cfg storage now) cycles.

(** ** Derived notions

    Names for the intermediate values of a cycle, used to state what
    each block computes. *)

(** The guard of line 50 lets the cycle run. *)
Definition config_ready (cfg : AppConfig) : Prop :=
  truthy_opt_number (listingChainId cfg) = true
  /\ truthy_string (listedName cfg) = true.

(** The request of lines 68-79. *)
Definition req_domains (node : string) : Request :=
  SubgraphDomains node limit "createdAt" "desc".

(** The request of lines 97-107. *)
Definition req_nested (node : string) : Request :=
  SubgraphNested node limit "createdAt" "desc".

(** The request of lines 119-125. *)
Definition req_subnames (cfg : AppConfig) : Request :=
  GetSubnames (listedName cfg) "" "createdAt" "desc" limit.

(** The request of lines 137-146. *)
Definition req_indexer (cfg : AppConfig) : Request :=
  IndexerNodes (listedName cfg) limit.

(** The names kept from [data.domains] (lines 90-92). *)
Definition named (ds : list Subname) : list string :=
  map name (List.filter (fun sub => truthy_string (name sub)) ds).

(** The frame after lines 84-93 have read the first subgraph reply. *)
Definition after_first_reply (data : option GraphData) (fr : Frame) : Frame :=
  mkFrame
    (match graph_subdomainCount data with
     | Some c => if truthy_number c then c else var_totalMinted fr
     | None => var_totalMinted fr
     end)
    (match graph_domains data with
     | Some ds => named ds
     | None => var_recentMints fr
     end).

(** The test of line 96. *)
Definition corrective_needed (fr : Frame) : bool :=
  (var_totalMinted fr >? 0) && (length (var_recentMints fr) =? 0)%nat.

(** The machine after the cache write of lines 153-159. *)
Definition cached (cfg : AppConfig) (net : Network) (fr : Frame)
    (m : Machine) : Machine :=
  if var_totalMinted fr >? 0 then
    mkMachine (react_state m) (renders m)
      (<[cache_key (listedName cfg) :=
           Serialized (mkCacheEntry (var_totalMinted fr) (var_recentMints fr)
                         (date_now net))]> (localStorage m))
      (requests m)
  else m.

(** The live snapshot a completed cycle sets (lines 161-166). *)
Definition fresh_stats (fr : Frame) : MintStats :=
  mkMintStats (var_totalMinted fr) (var_recentMints fr) false None.

(** The machine when the adapters start: line 55 has run if the captured
    [stats] has a zero count. *)
Definition started (stats : MintStats) (m : Machine) : Machine :=
  if totalMinted stats =? 0 then rendered show_loading m else m.

(** [recentMints.length <= limit]. *)
Definition within_limit (s : MintStats) : Prop :=
  (length (recentMints s) <= 100)%nat.

(** ** Scenario data *)

(** A stand-in for [namehash(normalize(_))] that accepts every name. *)
Definition node_of (s : string) : option string := Some ("node:" +:+ s).

(** A network on which every request is rejected. *)
Definition offline (now : Z) : Network :=
  mkNetwork node_of (fun _ _ => Rejected) (fun _ _ => Rejected)
    (fun _ _ => Rejected) (fun _ _ => Rejected) now.

(** A network whose subgraph answers the first query with [data]. *)
Definition subgraph_answers (data : GraphData) (now : Z) : Network :=
  mkNetwork node_of (fun _ _ => Resolved (Some data)) (fun _ _ => Rejected)
    (fun _ _ => Rejected) (fun _ _ => Rejected) now.

(** An L1 listing and an L2 listing. *)
Definition alice_cfg : AppConfig := mkAppConfig (Some 1) "alice.eth" L1.

Definition bob_cfg : AppConfig := mkAppConfig (Some 8453) "bob.eth" L2.

(** [{subdomainCount: 3, domains: [{name: "x.alice.eth"}, {name: "y.alice.eth"}]}]. *)
Definition alice_data : GraphData :=
  mkGraphData (Some (mkDomainObj (Some 3) None))
    (Some [mkSubname "x.alice.eth"; mkSubname "y.alice.eth"]).

(** The subgraph answers with [alice_data]; the clock reads 1000. *)
Definition alice_net : Network := subgraph_answers alice_data 1000.

(** A cache holding a record for [listedName], written at time 0. *)
Definition cache_with (listedName : string) (total : Z) (recent : list string)
  : gmap string StoredItem :=
  {[ cache_key listedName := Serialized (mkCacheEntry total recent 0) ]}.

(** A hook mounted at time 1000 over an empty cache. *)
Definition alice_mounted : Hook := useMintStats_mount alice_cfg ∅ 1000.

(** A hook mounted at time 1000 over a cache that holds 42 mints. *)
Definition alice_seeded : Hook :=
  useMintStats_mount alice_cfg (cache_with "alice.eth" 42 ["a.alice.eth"]) 1000.

(** A hook mounted at time 1000 over a cache that holds 10 mints. *)
Definition bob_seeded : Hook :=
  useMintStats_mount bob_cfg (cache_with "bob.eth" 10 ["a.bob.eth"]) 1000.

(** A first reply that reports 5 subdomains but lists none. *)
Definition inconsistent_data : GraphData :=
  mkGraphData (Some (mkDomainObj (Some 5) None)) (Some []).

(** A nested reply with two names. *)
Definition nested_data : GraphData :=
  mkGraphData
    (Some (mkDomainObj None
             (Some [mkSubname "n1.alice.eth"; mkSubname "n2.alice.eth"])))
    None.

(** A subgraph that sends [inconsistent_data], then [nested_data]. *)
Definition corrected_net : Network :=
  mkNetwork node_of (fun _ _ => Resolved (Some inconsistent_data))
    (fun _ _ => Resolved (Some nested_data))
    (fun _ _ => Rejected) (fun _ _ => Rejected) 1000.

(** A subgraph that answers [first: 100] with 101 entries. *)
Definition oversized_data : GraphData :=
  mkGraphData (Some (mkDomainObj (Some 101) None))
    (Some (replicate 101 (mkSubname "n.alice.eth"))).

(** An indexer reply that carries one item and no [totalItems]. *)
Definition uncounted_net : Network :=
  mkNetwork node_of (fun _ _ => Rejected) (fun _ _ => Rejected)
    (fun _ _ => Rejected)
    (fun _ _ => Resolved (mkIndexerData (Some [mkSubname "z.bob.eth"]) None))
    2000.

(** A subgraph that reports 5 subdomains but lists none and rejects the
    nested query, with an ENS client that returns an empty page. *)
Definition half_answered_net : Network :=
  mkNetwork node_of (fun _ _ => Resolved (Some inconsistent_data))
    (fun _ _ => Rejected)
    (fun _ _ => Resolved (Some []))
    (fun _ _ => Rejected) 1000.

(** An indexer that reports 7 items and returns two of them. *)
Definition bob_net : Network :=
  mkNetwork node_of (fun _ _ => Rejected) (fun _ _ => Rejected)
    (fun _ _ => Rejected)
    (fun _ _ => Resolved (mkIndexerData
                            (Some [mkSubname "a.bob.eth"; mkSubname "b.bob.eth"])
                            (Some 7)))
    2000.

(** A rejected subgraph and an ENS client that returns a page of 101
    entries. *)
Definition long_page : list Subname := replicate 101 (mkSubname "s.alice.eth").

Definition ens_page_net : Network :=
  mkNetwork node_of (fun _ _ => Rejected) (fun _ _ => Rejected)
    (fun _ _ => Resolved (Some long_page)) (fun _ _ => Rejected) 3000.

(** A configuration whose chain id has not arrived yet. *)
Definition no_chain_cfg : AppConfig := mkAppConfig None "alice.eth" L1.

(** A subgraph that sends [inconsistent_data] and rejects the nested
    query, with an ENS client that is rejected too. *)
Definition late_failure_net : Network :=
  mkNetwork node_of (fun _ _ => Resolved (Some inconsistent_data))
    (fun _ _ => Rejected) (fun _ _ => Rejected) (fun _ _ => Rejected) 2000.

(** ** Avatar URLs

    Shallow embedding of [src/src/utils/avatarUtils.ts]. JavaScript
    strings are sequences of UTF-16 units and these are sequences of
    bytes; both patterns used here are ASCII, and an ASCII byte never
    occurs inside a multi-byte character, so occurrences correspond. *)

(** [Some rest] when [s] is [pat] followed by [rest]. *)
Fixpoint strip_prefix (pat s : string) : option string :=
  match pat with
  | EmptyString => Some s
  | String p pat' =>
      match s with
      | EmptyString => None
      | String c s' => if Ascii.eqb p c then strip_prefix pat' s' else None
      end
  end.

(** [s.includes(pat)]. *)
Fixpoint includes (s pat : string) : bool :=
  match strip_prefix pat s with
  | Some _ => true
  | None =>
      match s with
      | EmptyString => false
      | String _ s' => includes s' pat
      end
  end.

(** [s.replace(pat, rep)] for a string pattern and a replacement without
    [$]: the first occurrence of [pat] is replaced, the rest is kept. *)
Fixpoint replace (s pat rep : string) : string :=
  match strip_prefix pat s with
  | Some rest => rep +:+ rest
  | None =>
      match s with
      | EmptyString => EmptyString
      | String c s' => String c (replace s' pat rep)
      end
  end.

(** The ENS metadata service that stands in for [euc.li]. *)
Definition metadata_avatar : string :=
  "https://metadata.ens.domains/mainnet/avatar".

(** [getSafeAvatarUrl(url?)]; [None] is [undefined]. *)
Definition getSafeAvatarUrl (url : option string) : option string :=
  match url with
  | None => None
  | Some u =>
      if negb (truthy_string u) then None
      else if includes u "euc.li"
      then Some (replace u "https://euc.li" metadata_avatar)
      else Some u
  end.

(** ** Run equations

    Each block of [fetchMintStats] is computed once and for all as a
    function of the replies it meets. *)

Ltac unfold_eff :=
  unfold call, await, setStats, localStorage_setItem, read_totalMinted,
    read_recentMints, assign_totalMinted, assign_recentMints, try_catch,
    bind, throw, ret in *.

Lemma subgraph_query_run cfg net fr m :
  subgraph_query cfg net fr m =
  match namehash_normalize net (listedName cfg) with
  | None => (Thrown, fr, m)
  | Some node =>
      match subgraph_domains net node limit with
      | Rejected => (Thrown, fr, sent m (req_domains node))
      | Resolved data =>
          let fr1 := after_first_reply data fr in
          let m1 := sent m (req_domains node) in
          if corrective_needed fr1 then
            match subgraph_nested net node limit with
            | Rejected => (Thrown, fr1, sent m1 (req_nested node))
            | Resolved nested =>
                (Normal tt,
                 match graph_nested_subdomains nested with
                 | Some l => mkFrame (var_totalMinted fr1) (map name l)
                 | None => fr1
                 end,
                 sent m1 (req_nested node))
            end
          else (Normal tt, fr1, m1)
      end
  end.
Proof.
  unfold subgraph_query, after_first_reply, corrective_needed, named,
    req_domains, req_nested.
  unfold_eff.
  destruct (namehash_normalize net (listedName cfg)) as [node|]; [|reflexivity].
  destruct (subgraph_domains net node limit) as [data|]; [|reflexivity].
  destruct fr as [t r]; cbn [var_totalMinted var_recentMints].
  destruct (graph_subdomainCount data) as [c|];
    [destruct (truthy_number c)|];
    destruct (graph_domains data) as [ds|];
    cbn [var_totalMinted var_recentMints];
    (match goal with
     | |- context [(?a >? 0) && ?b] => destruct ((a >? 0) && b)
     end; [|reflexivity]);
    (destruct (subgraph_nested net node limit) as [nested|]; [|reflexivity]);
    destruct (graph_nested_subdomains nested); reflexivity.
Qed.

Lemma ens_client_fallback_run cfg net fr m :
  ens_client_fallback cfg net fr m =
  (Normal tt,
   match ens_getSubnames net (listedName cfg) limit with
   | Resolved (Some l) =>
       if (0 <? length l)%nat
       then mkFrame (Z.of_nat (length l)) (slice_names l)
       else fr
   | _ => fr
   end,
   sent m (req_subnames cfg)).
Proof.
  unfold ens_client_fallback, req_subnames. unfold_eff.
  destruct (ens_getSubnames net (listedName cfg) limit) as [[l|]|];
    try reflexivity.
  destruct (0 <? length l)%nat; reflexivity.
Qed.

Lemma indexer_query_run cfg net fr m :
  indexer_query cfg net fr m =
  match indexer_nodes net (listedName cfg) limit with
  | Rejected => (Thrown, fr, sent m (req_indexer cfg))
  | Resolved data =>
      (Normal tt,
       mkFrame
         (match totalItems data with
          | Some z => if truthy_number z then z else 0
          | None => 0
          end)
         (match items data with
          | Some l => slice_names l
          | None => []
          end),
       sent m (req_indexer cfg))
  end.
Proof.
  unfold indexer_query, req_indexer. unfold_eff.
  destruct (indexer_nodes net (listedName cfg) limit); reflexivity.
Qed.

Lemma publish_run cfg net fr m :
  publish true cfg net fr m =
  (Normal tt, fr,
   rendered (fun _ => mkMintStats (var_totalMinted fr) (var_recentMints fr)
                        false None)
     (cached cfg net fr m)).
Proof.
  unfold publish, cached, rendered. unfold_eff.
  destruct (var_totalMinted fr >? 0); reflexivity.
Qed.

Lemma fetchMintStats_skip cfg stats net m :
  ~ config_ready cfg -> fetchMintStats cfg stats net m = m.
Proof.
  unfold config_ready, fetchMintStats, fetchMintStats_with, fetchMintStats_run.
  intros H.
  destruct (truthy_opt_number (listingChainId cfg));
    destruct (truthy_string (listedName cfg)); try reflexivity.
  exfalso; apply H; split; reflexivity.
Qed.

Lemma fetchMintStats_eq cfg stats net m :
  config_ready cfg ->
  fetchMintStats cfg stats net m =
  match adapters cfg net (mkFrame 0 []) (started stats m) with
  | (Normal _, fr, m1) => rendered (fun _ => fresh_stats fr) (cached cfg net fr m1)
  | (Thrown, _, m1) => rendered show_failure m1
  end.
Proof.
  intros [Hc Hn].
  unfold fetchMintStats, fetchMintStats_with, fetchMintStats_run, started.
  rewrite Hc, Hn. cbn [negb orb].
  unfold try_catch at 1. unfold bind at 1 2 3 4.
  unfold setStats, assign_totalMinted, assign_recentMints, ret.
  fold (rendered show_loading m).
  destruct (totalMinted stats =? 0); cbn [var_totalMinted var_recentMints];
    (destruct (adapters cfg net _ _) as [[[[]|] fr] m1];
     [rewrite publish_run|]; reflexivity).
Qed.

Lemma adapters_L1 cfg net fr m :
  listingType cfg = L1 ->
  adapters cfg net fr m =
  match subgraph_query cfg net fr m with
  | (Normal u, fr', m') => (Normal u, fr', m')
  | (Thrown, fr', m') => ens_client_fallback cfg net fr' m'
  end.
Proof. intros H. unfold adapters. rewrite H. reflexivity. Qed.

Lemma adapters_L2 cfg net fr m :
  listingType cfg = L2 -> adapters cfg net fr m = indexer_query cfg net fr m.
Proof. intros H. unfold adapters. rewrite H. reflexivity. Qed.

Lemma truthy_number_pos z : z > 0 -> truthy_number z = true.
Proof. unfold truthy_number. intros H. destruct (Z.eqb_spec z 0); [lia|reflexivity]. Qed.

Lemma gtb_pos z : z > 0 -> (z >? 0) = true.
Proof. intros H. apply Z.gtb_lt. lia. Qed.

Lemma gtb_nonpos z : z <= 0 -> (z >? 0) = false.
Proof. intros H. destruct (Z.gtb_spec z 0); [lia|reflexivity]. Qed.

Lemma length_eqb_0 {A} (l : list A) :
  (length l =? 0)%nat = match l with [] => true | _ => false end.
Proof. destruct l; reflexivity. Qed.

(** [started] only touches the loading and error flags. *)
Lemma started_totalMinted stats m :
  totalMinted (react_state (started stats m)) = totalMinted (react_state m).
Proof. unfold started. destruct (totalMinted stats =? 0); reflexivity. Qed.

Lemma started_recentMints stats m :
  recentMints (react_state (started stats m)) = recentMints (react_state m).
Proof. unfold started. destruct (totalMinted stats =? 0); reflexivity. Qed.

Lemma started_localStorage stats m :
  localStorage (started stats m) = localStorage m.
Proof. unfold started. destruct (totalMinted stats =? 0); reflexivity. Qed.

Lemma started_requests stats m :
  requests (started stats m) = requests m.
Proof. unfold started. destruct (totalMinted stats =? 0); reflexivity. Qed.

(** ** The subgraph path (L1) *)

(** C3. On an L1 listing, when the subgraph answers with a positive
    [subdomainCount] N and a non-empty list of names, the cycle ends with
    the snapshot [{N, names, isLoading: false, error: null}], the cache
    entry of the listed name is overwritten with [{N, names, now}], and
    the subgraph query is the only request sent. *)
Theorem subgraph_success_adopted cfg stats net m node data N ds :
  config_ready cfg ->
  listingType cfg = L1 ->
  namehash_normalize net (listedName cfg) = Some node ->
  subgraph_domains net node limit = Resolved data ->
  graph_subdomainCount data = Some N ->
  N > 0 ->
  graph_domains data = Some ds ->
  named ds <> [] ->
  let m' := fetchMintStats cfg stats net m in
  react_state m' = mkMintStats N (named ds) false None
  /\ last (renders m') = Some (mkMintStats N (named ds) false None)
  /\ localStorage m' =
       <[cache_key (listedName cfg) :=
           Serialized (mkCacheEntry N (named ds) (date_now net))]>
         (localStorage m)
  /\ requests m' = requests m ++ [req_domains node].
Proof.
  intros Hready HL1 Hnode Hreply Hcount HN Hds Hnames m'. subst m'.
  rewrite fetchMintStats_eq, adapters_L1, subgraph_query_run by assumption.
  rewrite Hnode, Hreply.
  cbv zeta. unfold corrective_needed, after_first_reply.
  rewrite Hcount, Hds, (truthy_number_pos N HN).
  cbn [var_totalMinted var_recentMints].
  rewrite length_eqb_0, (gtb_pos N HN).
  destruct (named ds) as [|n0 names] eqn:E; [congruence|].
  cbn [andb]. unfold cached, rendered, fresh_stats, sent.
  cbn [var_totalMinted var_recentMints react_state renders localStorage requests].
  rewrite (gtb_pos N HN).
  cbn [react_state renders localStorage requests].
  rewrite last_snoc, started_localStorage, started_requests.
  repeat split; reflexivity.
Qed.

(** ** The indexer path (L2) *)

(** C4. On an L2 listing the only request of a cycle is the indexer
    query, whatever it answers; when it is rejected the snapshot keeps
    the count and the names it had, with [isLoading = false] and the
    error message set, and [localStorage] is not written. *)
Theorem indexer_only_and_failure_kept cfg stats net m :
  config_ready cfg ->
  listingType cfg = L2 ->
  let m' := fetchMintStats cfg stats net m in
  requests m' = requests m ++ [req_indexer cfg]
  /\ (indexer_nodes net (listedName cfg) limit = Rejected ->
      isLoading (react_state m') = false
      /\ error (react_state m') = Some "Failed to fetch mint statistics"%string
      /\ totalMinted (react_state m') = totalMinted (react_state m)
      /\ recentMints (react_state m') = recentMints (react_state m)
      /\ localStorage m' = localStorage m).
Proof.
  intros Hready HL2 m'. subst m'.
  rewrite fetchMintStats_eq, adapters_L2, indexer_query_run by assumption.
  destruct (indexer_nodes net (listedName cfg) limit) as [data|].
  - split; [|discriminate].
    unfold rendered, cached, sent.
    destruct (var_totalMinted _ >? 0);
      cbn [requests]; rewrite started_requests; reflexivity.
  - unfold rendered, show_failure, sent.
    cbn [react_state requests localStorage totalMinted recentMints isLoading error].
    rewrite started_requests, started_totalMinted, started_recentMints,
      started_localStorage.
    repeat split; reflexivity.
Qed.

(** ** What the adapters leave alone *)

Ltac split_match :=
  match goal with
  | |- context [match ?x with _ => _ end] =>
      lazymatch x with
      | context [match _ with _ => _ end] => fail
      | _ => destruct x eqn:?
      end
  end.

(** The adapters only read replies, assign the two variables and send
    requests: the state cell, the renders and the cache stay as they
    were. *)
Lemma adapters_static cfg net fr m :
  react_state (adapters cfg net fr m).2 = react_state m
  /\ renders (adapters cfg net fr m).2 = renders m
  /\ localStorage (adapters cfg net fr m).2 = localStorage m.
Proof.
  unfold adapters, try_catch.
  destruct (listingType cfg).
  - rewrite subgraph_query_run. cbv zeta.
    repeat split_match; rewrite ?ens_client_fallback_run; cbn; auto.
  - rewrite indexer_query_run. split_match; cbn; auto.
Qed.

(** The two ways a cycle ends, in terms of what the adapters did. *)
Lemma fetchMintStats_outcome cfg stats net m :
  config_ready cfg ->
  let m' := fetchMintStats cfg stats net m in
  match adapters cfg net (mkFrame 0 []) (started stats m) with
  | (Normal _, fr, _) =>
      react_state m' = fresh_stats fr
      /\ localStorage m' =
           (if var_totalMinted fr >? 0
            then <[cache_key (listedName cfg) :=
                     Serialized (mkCacheEntry (var_totalMinted fr)
                                   (var_recentMints fr) (date_now net))]>
                   (localStorage m)
            else localStorage m)
  | (Thrown, _, _) =>
      react_state m' = show_failure (react_state m)
      /\ localStorage m' = localStorage m
  end.
Proof.
  intros Hready m'. subst m'. rewrite fetchMintStats_eq by assumption.
  pose proof (adapters_static cfg net (mkFrame 0 []) (started stats m))
    as (Hs & _ & Hl).
  destruct (adapters cfg net _ _) as [[[[]|] fr] m1]; cbn [snd] in Hs, Hl.
  - unfold rendered, cached.
    destruct (var_totalMinted fr >? 0);
      cbn [react_state localStorage]; rewrite Hl, started_localStorage; auto.
  - unfold rendered, show_failure. cbn [react_state localStorage].
    rewrite Hs, Hl, started_totalMinted, started_recentMints,
      started_localStorage.
    auto.
Qed.

Lemma renders_rendered f m :
  renders (rendered f m) = renders m ++ [f (react_state m)].
Proof. reflexivity. Qed.

Lemma renders_cached cfg net fr m : renders (cached cfg net fr m) = renders m.
Proof. unfold cached. destruct (var_totalMinted fr >? 0); reflexivity. Qed.

(** The guard of line 50 is a test. *)
Lemma config_ready_dec cfg : {config_ready cfg} + {~ config_ready cfg}.
Proof.
  unfold config_ready.
  destruct (truthy_opt_number (listingChainId cfg));
    destruct (truthy_string (listedName cfg));
    first [left; split; reflexivity | right; intros [? ?]; discriminate].
Defined.

(** What consumers see during a cycle: nothing when the guard returns;
    otherwise the loading snapshot if the captured [stats] has a zero
    count, then the snapshot the cycle ends with. *)
Lemma fetchMintStats_renders cfg stats net m :
  renders (fetchMintStats cfg stats net m) =
  renders m
  ++ (if config_ready_dec cfg then
        (if totalMinted stats =? 0 then [show_loading (react_state m)] else [])
        ++ [react_state (fetchMintStats cfg stats net m)]
      else []).
Proof.
  destruct (config_ready_dec cfg) as [Hready|Hnot].
  2:{ rewrite (fetchMintStats_skip _ _ _ _ Hnot), app_nil_r. reflexivity. }
  rewrite fetchMintStats_eq by assumption.
  pose proof (adapters_static cfg net (mkFrame 0 []) (started stats m))
    as (_ & Hr & _).
  assert (Hstart : renders (started stats m) =
    renders m ++ (if totalMinted stats =? 0
                  then [show_loading (react_state m)] else [])).
  { unfold started. destruct (totalMinted stats =? 0);
      [reflexivity|rewrite app_nil_r; reflexivity]. }
  destruct (adapters cfg net _ _) as [[[[]|] fr] m1]; cbn [snd] in Hr.
  - rewrite renders_rendered, renders_cached, Hr, Hstart, <- app_assoc.
    reflexivity.
  - rewrite renders_rendered, Hr, Hstart, <- app_assoc. reflexivity.
Qed.

(** ** The cache write *)

(** A refused write throws out of [publish] before the final [setStats];
    nothing is written when the count is not positive. *)
Lemma publish_refused cfg net fr m :
  publish false cfg net fr m =
  if var_totalMinted fr >? 0
  then (Thrown, fr, m)
  else (Normal tt, fr, rendered (fun _ => fresh_stats fr) m).
Proof.
  unfold publish, rendered, fresh_stats. unfold_eff.
  destruct (var_totalMinted fr >? 0); reflexivity.
Qed.

(** The run equation of a whole cycle, for a store that accepts or
    refuses the write. *)
Lemma fetchMintStats_with_eq accepted cfg stats net m :
  config_ready cfg ->
  fetchMintStats_with accepted cfg stats net m =
  match adapters cfg net (mkFrame 0 []) (started stats m) with
  | (Normal _, fr, m1) =>
      if (var_totalMinted fr >? 0) && negb accepted
      then rendered show_failure m1
      else rendered (fun _ => fresh_stats fr) (cached cfg net fr m1)
  | (Thrown, _, m1) => rendered show_failure m1
  end.
Proof.
  intros Hready. destruct accepted; cbn [negb].
  - assert (Hno : forall b : bool, b && false = false)
      by (intros []; reflexivity).
    transitivity
      (match adapters cfg net (mkFrame 0 []) (started stats m) with
       | (Normal _, fr, m1) =>
           rendered (fun _ => fresh_stats fr) (cached cfg net fr m1)
       | (Thrown, _, m1) => rendered show_failure m1
       end);
      [|destruct (adapters cfg net _ _) as [[[[]|] fr] m1];
        rewrite ?Hno; reflexivity].
    exact (fetchMintStats_eq cfg stats net m Hready).
  - destruct Hready as [Hc Hn].
    unfold fetchMintStats_with, fetchMintStats_run, started.
    rewrite Hc, Hn. cbn [negb orb].
    unfold try_catch at 1. unfold bind at 1 2 3 4.
    unfold setStats, assign_totalMinted, assign_recentMints, ret.
    fold (rendered show_loading m).
    destruct (totalMinted stats =? 0); cbn [var_totalMinted var_recentMints];
      (destruct (adapters cfg net _ _) as [[[[]|] fr] m1];
       [rewrite publish_refused, andb_true_r; unfold cached;
        destruct (var_totalMinted fr >? 0)|]; reflexivity).
Qed.

(** C5 fails on the code: a hook whose cache holds 42 mints meets a
    cycle in which the subgraph reads a count of 5, then fails in its
    nested query, and the ENS client is rejected. Both adapters failed,
    yet the cycle ends without error and the cached 42 is overwritten by
    a record with count 5 and no name. *)
Theorem failed_cycle_overwrites_cache :
  let m' := machine (refresh alice_cfg alice_seeded late_failure_net) in
  localStorage (machine alice_seeded) !! "mintStats-alice.eth"%string
  = Some (Serialized (mkCacheEntry 42 ["a.alice.eth"] 0))
  /\ subgraph_nested late_failure_net "node:alice.eth" limit = Rejected
  /\ ens_getSubnames late_failure_net "alice.eth" limit = Rejected
  /\ requests m' = [SubgraphDomains "node:alice.eth" 100 "createdAt" "desc";
                   SubgraphNested "node:alice.eth" 100 "createdAt" "desc";
                   GetSubnames "alice.eth" "" "createdAt" "desc" 100]
  /\ react_state m' = mkMintStats 5 [] false None
  /\ localStorage m' !! "mintStats-alice.eth"%string
     = Some (Serialized (mkCacheEntry 5 [] 2000)).
Proof. repeat split; reflexivity. Qed.

(** ** Projections of the machine updates *)

Lemma requests_rendered f m : requests (rendered f m) = requests m.
Proof. reflexivity. Qed.

Lemma requests_cached cfg net fr m : requests (cached cfg net fr m) = requests m.
Proof. unfold cached. destruct (var_totalMinted fr >? 0); reflexivity. Qed.

Lemma requests_sent m req : requests (sent m req) = requests m ++ [req].
Proof. reflexivity. Qed.

Lemma react_state_rendered f m : react_state (rendered f m) = f (react_state m).
Proof. reflexivity. Qed.

Lemma localStorage_rendered f m : localStorage (rendered f m) = localStorage m.
Proof. reflexivity. Qed.

Lemma localStorage_sent m req : localStorage (sent m req) = localStorage m.
Proof. reflexivity. Qed.

Lemma react_state_sent m req : react_state (sent m req) = react_state m.
Proof. reflexivity. Qed.

Lemma react_state_cached cfg net fr m :
  react_state (cached cfg net fr m) = react_state m.
Proof. unfold cached. destruct (var_totalMinted fr >? 0); reflexivity. Qed.

Create Rewrite HintDb machine.
#[local] Hint Rewrite requests_rendered requests_cached requests_sent
  react_state_rendered localStorage_rendered localStorage_sent
  react_state_sent react_state_cached started_requests started_localStorage
  started_totalMinted started_recentMints : machine.

(** The first subgraph reply, read into fresh variables. *)
Lemma after_first_reply_fresh data :
  after_first_reply data (mkFrame 0 []) =
  mkFrame (default 0 (graph_subdomainCount data))
    (match graph_domains data with Some ds => named ds | None => [] end).
Proof.
  unfold after_first_reply, truthy_number. cbn [var_totalMinted var_recentMints].
  destruct (graph_subdomainCount data) as [c|]; [|reflexivity].
  cbn [default]. destruct (Z.eqb_spec c 0); subst; reflexivity.
Qed.

(** ** The corrective query *)

(** C7. On an L1 listing whose first subgraph query is answered: when the
    count read is positive and no name was kept, exactly one nested query
    is sent, right after the first one and with the same node, limit and
    ordering (followed only by the ENS client call if the nested query is
    rejected), and a non-empty nested list becomes [recentMints]; when
    the count is not positive or some name was kept, the first query is
    the only request. *)
Theorem corrective_query_exactly_once cfg stats net m node data :
  config_ready cfg ->
  listingType cfg = L1 ->
  namehash_normalize net (listedName cfg) = Some node ->
  subgraph_domains net node limit = Resolved data ->
  let N := default 0 (graph_subdomainCount data) in
  let names := match graph_domains data with Some ds => named ds | None => [] end in
  let m' := fetchMintStats cfg stats net m in
  (N > 0 /\ names = [] ->
   requests m' =
     requests m
     ++ [SubgraphDomains node limit "createdAt" "desc";
         SubgraphNested node limit "createdAt" "desc"]
     ++ match subgraph_nested net node limit with
        | Resolved _ => []
        | Rejected => [GetSubnames (listedName cfg) "" "createdAt" "desc" limit]
        end
   /\ forall nested l,
        subgraph_nested net node limit = Resolved nested ->
        graph_nested_subdomains nested = Some l ->
        l <> [] ->
        recentMints (react_state m') = map name l
        /\ totalMinted (react_state m') = N)
  /\ (N <= 0 \/ names <> [] ->
      requests m' = requests m ++ [SubgraphDomains node limit "createdAt" "desc"]).
Proof.
  intros Hready HL1 Hnode Hreply N names m'. subst m'.
  rewrite fetchMintStats_eq, adapters_L1, subgraph_query_run by assumption.
  rewrite Hnode, Hreply. cbv zeta.
  rewrite after_first_reply_fresh. fold N names.
  unfold corrective_needed. cbn [var_totalMinted var_recentMints].
  rewrite length_eqb_0. split.
  - intros [HN Hnames]. rewrite Hnames, (gtb_pos N HN). cbn [andb].
    destruct (subgraph_nested net node limit) as [nested|].
    + split.
      * autorewrite with machine. rewrite <- app_assoc. reflexivity.
      * intros nested' l [= <-] Hl _. rewrite Hl.
        autorewrite with machine. split; reflexivity.
    + rewrite ens_client_fallback_run. split; [|discriminate].
      autorewrite with machine. rewrite <- !app_assoc. reflexivity.
  - intros H.
    assert ((N >? 0) && match names with [] => true | _ => false end = false)
      as ->.
    { destruct H as [H|H]; [rewrite (gtb_nonpos N H); reflexivity|].
      destruct names; [congruence|apply andb_false_r]. }
    autorewrite with machine. reflexivity.
Qed.

(** ** Seeding from the cache *)

(** What the initialiser does with a stored record: it is used when
    younger than one hour, and ignored otherwise. *)
Lemma useState_init_stored listedName (storage : gmap string StoredItem) e now :
  truthy_string listedName = true ->
  storage !! cache_key listedName = Some (Serialized e) ->
  useState_init listedName storage now =
  if now - timestamp e <? 3600000
  then mkMintStats (cached_totalMinted e) (cached_recentMints e) false None
  else empty_loading.
Proof. intros Hn Hs. unfold useState_init. rewrite Hn, Hs. reflexivity. Qed.

(** C8. A cycle that completes with a positive count saves
    [{totalMinted, recentMints, timestamp: now}]; an initialisation for
    the same listed name less than one hour later starts from exactly
    that count and those names with [isLoading = false]; one hour later
    or more the entry is ignored and the initial state is the empty
    loading state. The same freshness rule holds for any stored record. *)
Theorem cache_round_trip cfg stats net m later :
  config_ready cfg ->
  let m' := fetchMintStats cfg stats net m in
  error (react_state m') = None ->
  totalMinted (react_state m') > 0 ->
  let seeded := useState_init (listedName cfg) (localStorage m') later in
  (later - date_now net < 3600000 ->
   seeded = mkMintStats (totalMinted (react_state m'))
              (recentMints (react_state m')) false None)
  /\ (3600000 <= later - date_now net -> seeded = empty_loading)
  /\ (forall (storage : gmap string StoredItem) e,
        storage !! cache_key (listedName cfg) = Some (Serialized e) ->
        (later - timestamp e < 3600000 ->
         useState_init (listedName cfg) storage later =
           mkMintStats (cached_totalMinted e) (cached_recentMints e) false None)
        /\ (3600000 <= later - timestamp e ->
            useState_init (listedName cfg) storage later = empty_loading)).
Proof.
  intros Hready m' Herr Hpos seeded.
  assert (Hgen : forall (storage : gmap string StoredItem) e,
    storage !! cache_key (listedName cfg) = Some (Serialized e) ->
    (later - timestamp e < 3600000 ->
     useState_init (listedName cfg) storage later =
       mkMintStats (cached_totalMinted e) (cached_recentMints e) false None)
    /\ (3600000 <= later - timestamp e ->
        useState_init (listedName cfg) storage later = empty_loading)).
  { intros storage e Hs.
    rewrite (useState_init_stored _ _ e later (proj2 Hready) Hs).
    destruct (Z.ltb_spec (later - timestamp e) 3600000); split; intros;
      first [reflexivity | lia]. }
  assert (Hsaved : localStorage m' !! cache_key (listedName cfg) =
    Some (Serialized (mkCacheEntry (totalMinted (react_state m'))
                        (recentMints (react_state m')) (date_now net)))).
  { pose proof (fetchMintStats_outcome cfg stats net m Hready) as Hout.
    fold m' in Hout. cbv zeta in Hout.
    destruct (adapters cfg net _ _) as [[[[]|] fr] m1];
      destruct Hout as [Hs Hl]; rewrite Hs in Herr, Hpos |- *.
    - cbn [fresh_stats totalMinted recentMints] in Hpos |- *.
      rewrite Hl, (gtb_pos _ Hpos). apply lookup_insert_eq.
    - discriminate Herr. }
  destruct (Hgen _ _ Hsaved) as [Hfresh Hstale].
  repeat split; [exact Hfresh | exact Hstale | apply Hgen ..]; assumption.
Qed.

(** ** The length of [recentMints] *)

Lemma named_length ds : (length (named ds) <= length ds)%nat.
Proof.
  unfold named. rewrite length_map.
  induction ds as [|d ds IH]; cbn [List.filter length]; [lia|].
  destruct (truthy_string (name d)); cbn [length]; lia.
Qed.

Lemma slice_names_length l : (length (slice_names l) <= 100)%nat.
Proof.
  unfold slice_names. rewrite length_map, length_take.
  change (Z.to_nat limit) with 100%nat. lia.
Qed.

Section SubgraphHonoursFirst.

Variable net : Network.

(** The subgraph returns at most the [first: limit] entries asked for,
    in both queries. *)
Hypothesis domains_capped : forall node data ds,
  subgraph_domains net node limit = Resolved data ->
  graph_domains data = Some ds ->
  (length ds <= 100)%nat.
Hypothesis subdomains_capped : forall node data l,
  subgraph_nested net node limit = Resolved data ->
  graph_nested_subdomains data = Some l ->
  (length l <= 100)%nat.

Lemma adapters_within_limit cfg fr m :
  (length (var_recentMints fr) <= 100)%nat ->
  (length (var_recentMints (adapters cfg net fr m).1.2) <= 100)%nat.
Proof.
  intros Hfr. unfold adapters, try_catch.
  destruct (listingType cfg).
  - rewrite subgraph_query_run. cbv zeta.
    assert (Hfirst : forall node data,
      subgraph_domains net node limit = Resolved data ->
      (length (var_recentMints (after_first_reply data fr)) <= 100)%nat).
    { intros node data Hreply. unfold after_first_reply.
      cbn [var_recentMints].
      destruct (graph_domains data) as [ds|] eqn:Hds; [|exact Hfr].
      pose proof (domains_capped _ _ _ Hreply Hds).
      pose proof (named_length ds). lia. }
    pose proof slice_names_length as Hslice.
    destruct (namehash_normalize net (listedName cfg)) as [node|].
    2:{ rewrite ens_client_fallback_run. cbn [fst snd].
        repeat split_match; cbn [var_recentMints]; auto. }
    destruct (subgraph_domains net node limit) as [data|] eqn:Hreply.
    2:{ rewrite ens_client_fallback_run. cbn [fst snd].
        repeat split_match; cbn [var_recentMints]; auto. }
    specialize (Hfirst _ _ Hreply).
    destruct (corrective_needed _); [|exact Hfirst].
    destruct (subgraph_nested net node limit) as [nested|] eqn:Hnested.
    + cbn [fst snd].
      destruct (graph_nested_subdomains nested) as [l|] eqn:Hl;
        [|exact Hfirst].
      cbn [var_recentMints]. rewrite length_map.
      exact (subdomains_capped _ _ _ Hnested Hl).
    + rewrite ens_client_fallback_run. cbn [fst snd].
      repeat split_match; cbn [var_recentMints]; auto.
  - rewrite indexer_query_run.
    destruct (indexer_nodes net (listedName cfg) limit) as [data|];
      cbn [fst snd var_recentMints]; [|exact Hfr].
    destruct (items data); [apply slice_names_length|cbn; lia].
Qed.

(** The snapshot a cycle leaves is within the limit if the one it found
    was. *)
Lemma kept_within_limit cfg stats m :
  within_limit (react_state m) ->
  within_limit (react_state (fetchMintStats cfg stats net m)).
Proof.
  intros Hcur.
  destruct (config_ready_dec cfg) as [Hready|Hnot].
  2:{ rewrite (fetchMintStats_skip _ _ _ _ Hnot). exact Hcur. }
  pose proof (fetchMintStats_outcome cfg stats net m Hready) as Hout.
  cbv zeta in Hout.
  pose proof (adapters_within_limit cfg (mkFrame 0 []) (started stats m))
    as Hb.
  destruct (adapters cfg net _ _) as [[[[]|] fr] m1];
    destruct Hout as [-> _]; cbn [fst snd] in Hb.
  - apply Hb. cbn. lia.
  - exact Hcur.
Qed.

(** The snapshot a completed cycle sets is within the limit. *)
Lemma completed_within_limit cfg stats m :
  config_ready cfg ->
  error (react_state (fetchMintStats cfg stats net m)) = None ->
  within_limit (react_state (fetchMintStats cfg stats net m)).
Proof.
  intros Hready Herr.
  pose proof (fetchMintStats_outcome cfg stats net m Hready) as Hout.
  cbv zeta in Hout.
  pose proof (adapters_within_limit cfg (mkFrame 0 []) (started stats m))
    as Hb.
  destruct (adapters cfg net _ _) as [[[[]|] fr] m1];
    destruct Hout as [Hs _]; rewrite Hs in Herr |- *; cbn [fst snd] in Hb.
  - apply Hb. cbn. lia.
  - discriminate Herr.
Qed.

(** Every snapshot a cycle renders is within the limit if those rendered
    before and the current one were. *)
Lemma renders_within_limit cfg stats m :
  Forall within_limit (renders m) ->
  within_limit (react_state m) ->
  Forall within_limit (renders (fetchMintStats cfg stats net m)).
Proof.
  intros Hall Hcur.
  rewrite fetchMintStats_renders.
  apply Forall_app; split; [exact Hall|].
  destruct (config_ready_dec cfg) as [Hready|Hnot]; [|constructor].
  apply Forall_app; split.
  - destruct (totalMinted stats =? 0); [|constructor].
    apply Forall_singleton. exact Hcur.
  - apply Forall_singleton, kept_within_limit, Hcur.
Qed.

End SubgraphHonoursFirst.

(** ** Cycles that end with a zero count *)

(** What the adapters compute does not depend on the machine they start
    from. *)
Lemma adapters_blind cfg net fr m1 m2 :
  (adapters cfg net fr m1).1 = (adapters cfg net fr m2).1.
Proof.
  unfold adapters, try_catch.
  destruct (listingType cfg).
  - rewrite !subgraph_query_run. cbv zeta.
    repeat split_match; rewrite ?ens_client_fallback_run; reflexivity.
  - rewrite !indexer_query_run. split_match; reflexivity.
Qed.

(** C10, amended. A cycle in which an adapter answered (the indexer on
    L2; the first subgraph query or the ENS client on L1) and which
    completes with a count of zero sets the snapshot
    [{0, names, isLoading: false, error: null}], whatever was shown
    before, where the names are those the adapter returned: the first
    100 item names on L2, the non-empty names of the first subgraph
    reply on L1, none when the ENS client answered after the subgraph
    failed. [localStorage] is not written. *)
Theorem zero_result_replaces_snapshot cfg stats net m :
  config_ready cfg ->
  (listingType cfg = L2
   \/ (exists node data,
         namehash_normalize net (listedName cfg) = Some node
         /\ subgraph_domains net node limit = Resolved data)
   \/ (exists page, ens_getSubnames net (listedName cfg) limit = Resolved page)) ->
  let m' := fetchMintStats cfg stats net m in
  error (react_state m') = None ->
  totalMinted (react_state m') = 0 ->
  react_state m' = mkMintStats 0 (recentMints (react_state m')) false None
  /\ localStorage m' = localStorage m
  /\ (forall s rs,
        react_state (fetchMintStats cfg stats net
                       (mkMachine s rs (localStorage m) (requests m))) =
        react_state m')
  /\ (listingType cfg = L2 ->
      forall data,
        indexer_nodes net (listedName cfg) limit = Resolved data ->
        recentMints (react_state m') =
          match items data with Some l => slice_names l | None => [] end)
  /\ (listingType cfg = L1 ->
      forall node data,
        namehash_normalize net (listedName cfg) = Some node ->
        subgraph_domains net node limit = Resolved data ->
        recentMints (react_state m') =
          match graph_domains data with Some ds => named ds | None => [] end)
  /\ (listingType cfg = L1 ->
      (namehash_normalize net (listedName cfg) = None
       \/ exists node, namehash_normalize net (listedName cfg) = Some node
                       /\ subgraph_domains net node limit = Rejected) ->
      forall page,
        ens_getSubnames net (listedName cfg) limit = Resolved page ->
        recentMints (react_state m') = []).
Proof.
  intros Hready _ m' Herr Hzero.
  pose proof (fetchMintStats_outcome cfg stats net m Hready) as Hout.
  fold m' in Hout. cbv zeta in Hout.
  destruct (adapters cfg net (mkFrame 0 []) (started stats m))
    as [[[[]|] fr] m1] eqn:Hrun; destruct Hout as [Hs Hl].
  2:{ rewrite Hs in Herr. discriminate Herr. }
  rewrite Hs in Hzero |- *. cbn [fresh_stats totalMinted] in Hzero.
  rewrite Hzero in Hl. cbn in Hl.
  split; [unfold fresh_stats; cbn [recentMints]; rewrite Hzero; reflexivity|].
  split; [exact Hl|]. split; [|split; [|split]].
  - intros s rs.
    pose proof (fetchMintStats_outcome cfg stats net
                  (mkMachine s rs (localStorage m) (requests m)) Hready) as Hout.
    cbv zeta in Hout.
    pose proof (adapters_blind cfg net (mkFrame 0 [])
                  (started stats (mkMachine s rs (localStorage m) (requests m)))
                  (started stats m)) as Hsame.
    rewrite Hrun in Hsame.
    destruct (adapters cfg net (mkFrame 0 []) (started stats (mkMachine _ _ _ _)))
      as [[c2 fr2] m2].
    cbn [fst] in Hsame. injection Hsame as -> ->.
    exact (proj1 Hout).
  - intros HL2 data Hreply.
    rewrite adapters_L2, indexer_query_run, Hreply in Hrun by assumption.
    injection Hrun as <- _. reflexivity.
  - intros HL1 node data Hnode Hreply.
    rewrite adapters_L1, subgraph_query_run, Hnode, Hreply in Hrun by assumption.
    cbv zeta in Hrun. rewrite after_first_reply_fresh in Hrun.
    unfold corrective_needed in Hrun.
    cbn [var_totalMinted var_recentMints] in Hrun.
    destruct (Z.gtb_spec (default 0 (graph_subdomainCount data)) 0) as [Hpos|Hle].
    + (* a positive count was read: the final count cannot be zero *)
      exfalso. cbn [andb] in Hrun.
      destruct (length _ =? 0)%nat.
      * destruct (subgraph_nested net node limit) as [nested|].
        -- injection Hrun as <- _.
           destruct (graph_nested_subdomains nested);
             cbn [var_totalMinted] in Hzero; lia.
        -- rewrite ens_client_fallback_run in Hrun. injection Hrun as <- _.
           destruct (ens_getSubnames net (listedName cfg) limit) as [[l|]|];
             cbn [var_totalMinted] in Hzero; try lia.
           destruct (Nat.ltb_spec 0 (length l));
             cbn [var_totalMinted] in Hzero; lia.
      * injection Hrun as <- _. cbn [var_totalMinted] in Hzero. lia.
    + cbn [andb] in Hrun. injection Hrun as <- _. reflexivity.
  - intros HL1 Hgraph page Hens.
    rewrite adapters_L1, subgraph_query_run in Hrun by assumption.
    destruct Hgraph as [Hnode|(node & Hnode & Hreply)];
      rewrite Hnode, ?Hreply, ens_client_fallback_run, Hens in Hrun;
      injection Hrun as <- _;
      (destruct page as [l|]; [|reflexivity]);
      (destruct (Nat.ltb_spec 0 (length l)); [|reflexivity]);
      cbn [var_totalMinted] in Hzero; lia.
Qed.

(** ** The ENS client fallback *)

(** On an L1 listing, when the subgraph query fails before anything is
    read and the ENS client answers with a page, that page becomes the
    snapshot: the count is the length of the page and the names are its
    first 100. *)
Lemma ens_fallback_adopted cfg stats net m page :
  config_ready cfg ->
  listingType cfg = L1 ->
  (namehash_normalize net (listedName cfg) = None
   \/ exists node, namehash_normalize net (listedName cfg) = Some node
                   /\ subgraph_domains net node limit = Rejected) ->
  ens_getSubnames net (listedName cfg) limit = Resolved (Some page) ->
  react_state (fetchMintStats cfg stats net m) =
    mkMintStats (Z.of_nat (length page)) (slice_names page) false None.
Proof.
  intros Hready HL1 Hgraph Hens.
  rewrite fetchMintStats_eq, adapters_L1, subgraph_query_run by assumption.
  destruct Hgraph as [Hnode|(node & Hnode & Hreply)];
    rewrite Hnode, ?Hreply, ens_client_fallback_run, Hens;
    (destruct page as [|p page]; [reflexivity|]);
    change (0 <? length (p :: page))%nat with true; cbv iota;
    autorewrite with machine; reflexivity.
Qed.

(** ** Sessions

    Properties of the whole hook, by induction on the cycles it runs. *)

(** The closure keeps the [stats] of the render that mounted the effect. *)
Lemma closure_stats_session cfg h cycles :
  closure_stats (foldl (refresh cfg) h cycles) = closure_stats h.
Proof.
  revert h. induction cycles as [|net cycles IH]; intros h; cbn [foldl].
  - reflexivity.
  - rewrite IH. reflexivity.
Qed.

Lemma closure_stats_useMintStats cfg storage now cycles :
  closure_stats (useMintStats cfg storage now cycles) =
  useState_init (listedName cfg) storage now.
Proof. unfold useMintStats. rewrite closure_stats_session. reflexivity. Qed.

(** When the captured count is zero, every cycle first renders the
    current snapshot with [isLoading = true], whatever its count. *)
Lemma stale_closure_shows_loading cfg h net :
  config_ready cfg ->
  totalMinted (closure_stats h) = 0 ->
  renders (machine (refresh cfg h net)) !! length (renders (machine h)) =
  Some (show_loading (react_state (machine h))).
Proof.
  intros Hready Hzero. unfold refresh. cbn [machine].
  rewrite fetchMintStats_renders, Hzero.
  destruct (config_ready_dec cfg) as [_|Hnot]; [|contradiction].
  rewrite lookup_app_r, Nat.sub_diag by lia. reflexivity.
Qed.

(** A cycle that runs ends with [isLoading = false]. *)
Lemma cycle_ends_not_loading cfg stats net m :
  config_ready cfg ->
  isLoading (react_state (fetchMintStats cfg stats net m)) = false.
Proof.
  intros Hready.
  pose proof (fetchMintStats_outcome cfg stats net m Hready) as Hout.
  cbv zeta in Hout.
  destruct (adapters cfg net _ _) as [[[[]|] fr] m1];
    destruct Hout as [-> _]; reflexivity.
Qed.

(** When the captured count is not zero (the hook was seeded from the
    cache), no cycle ever renders [isLoading = true]. *)
Lemma seeded_session_never_loading cfg h cycles :
  totalMinted (closure_stats h) <> 0 ->
  isLoading (react_state (machine h)) = false ->
  Forall (fun s => isLoading s = false) (renders (machine h)) ->
  Forall (fun s => isLoading s = false)
    (renders (machine (foldl (refresh cfg) h cycles)))
  /\ isLoading (react_state (machine (foldl (refresh cfg) h cycles))) = false.
Proof.
  intros Hseed. revert h Hseed.
  induction cycles as [|net cycles IH]; intros h Hseed Hcur Hall; cbn [foldl].
  - split; assumption.
  - assert (Hstep : isLoading (react_state (machine (refresh cfg h net))) = false).
    { unfold refresh. cbn [machine].
      destruct (config_ready_dec cfg) as [Hready|Hnot].
      - apply cycle_ends_not_loading, Hready.
      - rewrite (fetchMintStats_skip _ _ _ _ Hnot). exact Hcur. }
    apply IH; [exact Hseed|exact Hstep|].
    unfold refresh in *. cbn [machine] in *.
    rewrite fetchMintStats_renders.
    apply Forall_app; split; [exact Hall|].
    destruct (config_ready_dec cfg); [|constructor].
    destruct (Z.eqb_spec (totalMinted (closure_stats h)) 0); [contradiction|].
    apply Forall_singleton. exact Hstep.
Qed.

(** Over a whole session in which every subgraph reply honours
    [first: 100], all rendered snapshots stay within the limit. *)
Lemma session_within_limit cfg h (cycles : list Network) :
  (forall net, net ∈ cycles ->
     (forall node data ds,
        subgraph_domains net node limit = Resolved data ->
        graph_domains data = Some ds -> (length ds <= 100)%nat)
     /\ (forall node data l,
          subgraph_nested net node limit = Resolved data ->
          graph_nested_subdomains data = Some l -> (length l <= 100)%nat)) ->
  Forall within_limit (renders (machine h)) ->
  within_limit (react_state (machine h)) ->
  Forall within_limit (renders (machine (foldl (refresh cfg) h cycles))).
Proof.
  revert h. induction cycles as [|net cycles IH]; intros h Hnets Hall Hcur;
    cbn [foldl]; [exact Hall|].
  destruct (Hnets net) as [Hcap1 Hcap2]; [left|].
  apply IH.
  - intros net' Hin. apply Hnets. right. exact Hin.
  - apply renders_within_limit; assumption.
  - apply kept_within_limit; assumption.
Qed.

(** ** Scenarios *)

(** C3 on the end-to-end scenario of the specification. *)
Lemma subgraph_success_adopted_alice :
  let m' := machine (refresh alice_cfg alice_mounted alice_net) in
  react_state m' = mkMintStats 3 ["x.alice.eth"; "y.alice.eth"] false None
  /\ last (renders m')
     = Some (mkMintStats 3 ["x.alice.eth"; "y.alice.eth"] false None)
  /\ localStorage m'
     = <[ "mintStats-alice.eth" :=
            Serialized (mkCacheEntry 3 ["x.alice.eth"; "y.alice.eth"] 1000) ]> ∅
  /\ requests m' = [SubgraphDomains "node:alice.eth" 100 "createdAt" "desc"].
Proof.
  apply (subgraph_success_adopted alice_cfg empty_loading alice_net
           (machine alice_mounted) "node:alice.eth" (Some alice_data) 3
           [mkSubname "x.alice.eth"; mkSubname "y.alice.eth"]).
  - split; reflexivity.
  - reflexivity.
  - reflexivity.
  - reflexivity.
  - reflexivity.
  - lia.
  - reflexivity.
  - discriminate.
Defined.

(** C4, the L2 scenario of the specification: indexer unreachable. *)
Lemma indexer_failure_kept_bob :
  let m' := machine (refresh bob_cfg bob_seeded (offline 2000)) in
  requests m' = [IndexerNodes "bob.eth" 100]
  /\ react_state m'
     = mkMintStats 10 ["a.bob.eth"] false (Some "Failed to fetch mint statistics")
  /\ localStorage m' = cache_with "bob.eth" 10 ["a.bob.eth"].
Proof.
  destruct (indexer_only_and_failure_kept bob_cfg (closure_stats bob_seeded)
              (offline 2000) (machine bob_seeded))
    as [Hreq Hfail].
  - split; reflexivity.
  - reflexivity.
  - destruct (Hfail eq_refl) as (Hload & Herr & Htot & Hrec & Hstore).
    split; [exact Hreq|]. split; [|exact Hstore].
    change (fetchMintStats bob_cfg (closure_stats bob_seeded) (offline 2000)
              (machine bob_seeded))
      with (machine (refresh bob_cfg bob_seeded (offline 2000)))
      in Hload, Herr, Htot, Hrec.
    destruct (react_state (machine (refresh bob_cfg bob_seeded (offline 2000))))
      as [t r l e].
    cbn [totalMinted recentMints isLoading error] in Hload, Herr, Htot, Hrec.
    rewrite Hload, Herr, Htot, Hrec. reflexivity.
Defined.

(** C7 on that subgraph: one nested query, its names are adopted. *)
Lemma corrective_query_alice :
  let m' := machine (refresh alice_cfg alice_mounted corrected_net) in
  requests m' = [SubgraphDomains "node:alice.eth" 100 "createdAt" "desc";
                 SubgraphNested "node:alice.eth" 100 "createdAt" "desc"]
  /\ recentMints (react_state m') = ["n1.alice.eth"; "n2.alice.eth"]
  /\ totalMinted (react_state m') = 5.
Proof.
  destruct (corrective_query_exactly_once alice_cfg empty_loading corrected_net
              (machine alice_mounted) "node:alice.eth" (Some inconsistent_data))
    as [Hfix _].
  - split; reflexivity.
  - reflexivity.
  - reflexivity.
  - reflexivity.
  - destruct Hfix as [Hreq Hnames].
    + split; [cbn; lia|reflexivity].
    + split; [exact Hreq|].
      apply (Hnames (Some nested_data)
               [mkSubname "n1.alice.eth"; mkSubname "n2.alice.eth"]);
        [reflexivity|reflexivity|discriminate].
Defined.

(** C8 on the cache written by the first scenario at time 1000: a mount
    half an hour later is seeded, a mount one hour later is not. *)
Lemma cache_round_trip_alice :
  let storage := localStorage (machine (refresh alice_cfg alice_mounted alice_net)) in
  useState_init "alice.eth" storage (1000 + 1800000)
  = mkMintStats 3 ["x.alice.eth"; "y.alice.eth"] false None
  /\ useState_init "alice.eth" storage (1000 + 3600000) = empty_loading.
Proof.
  split.
  - apply (cache_round_trip alice_cfg empty_loading alice_net
             (machine alice_mounted) (1000 + 1800000));
      [split; reflexivity|reflexivity|vm_compute; reflexivity|vm_compute; reflexivity].
  - apply (cache_round_trip alice_cfg empty_loading alice_net
             (machine alice_mounted) (1000 + 3600000));
      [split; reflexivity|reflexivity|vm_compute; reflexivity
      |vm_compute; discriminate].
Defined.

(** C9 fails on the code: the ENS client and indexer lists are cut
    with [slice(0, limit)], the subgraph list is not, so a subgraph
    reply of 101 entries gives a snapshot with 101 recent mints. *)
Lemma recentMints_over_limit :
  let m' := machine (refresh alice_cfg alice_mounted
                       (subgraph_answers oversized_data 1000)) in
  error (react_state m') = None
  /\ length (recentMints (react_state m')) = 101%nat
  /\ ~ within_limit (react_state m').
Proof.
  assert (H : length (recentMints (react_state (machine (refresh alice_cfg
                alice_mounted (subgraph_answers oversized_data 1000)))))
              = 101%nat) by (vm_compute; reflexivity).
  split; [reflexivity|]. split; [exact H|].
  unfold within_limit. rewrite H. lia.
Qed.

(** C10 as stated fails: the cycle completes with a count of zero, and
    the snapshot keeps the name the indexer returned. *)
Lemma zero_result_keeps_names :
  let m' := machine (refresh bob_cfg bob_seeded uncounted_net) in
  error (react_state m') = None
  /\ totalMinted (react_state m') = 0
  /\ react_state m' = mkMintStats 0 ["z.bob.eth"] false None
  /\ react_state m' <> mkMintStats 0 [] false None.
Proof. repeat split; try reflexivity. discriminate. Qed.

(** C1 fails on the code: a hook showing 42 mints meets a cycle in
    which both the subgraph and the ENS client are rejected. Both errors
    are only logged: no error is set and the snapshot is emptied, where
    the L2 branch and the outer [catch] keep the data and set the
    error. *)
Lemma double_failure_empties_snapshot :
  let m' := machine (refresh alice_cfg alice_seeded (offline 2000)) in
  react_state (machine alice_seeded)
  = mkMintStats 42 ["a.alice.eth"] false None
  /\ subgraph_domains (offline 2000) "node:alice.eth" limit = Rejected
  /\ ens_getSubnames (offline 2000) "alice.eth" limit = Rejected
  /\ error (react_state m') = None
  /\ totalMinted (react_state m') = 0
  /\ recentMints (react_state m') = [].
Proof. repeat split; reflexivity. Qed.

(** ** The loading flag across cycles *)

(** C2 fails on the code: [fetchMintStats] tests the [stats] captured
    when the effect ran, not the current state. A hook mounted without
    cache captures a zero count; after the first cycle shows 3 mints,
    the second cycle still runs line 55 and renders the 3 mints with
    [isLoading = true]. *)
Theorem loading_flag_returns_after_data :
  let h := useMintStats alice_cfg ∅ 1000 [alice_net; alice_net] in
  closure_stats h = empty_loading
  /\ renders (machine h) !! 2%nat
     = Some (mkMintStats 3 ["x.alice.eth"; "y.alice.eth"] false None)
  /\ renders (machine h) !! 3%nat
     = Some (mkMintStats 3 ["x.alice.eth"; "y.alice.eth"] true None).
Proof. repeat split; reflexivity. Qed.

(** ** A failed corrective query followed by an empty page *)

(** C6 fails on the code: the subgraph path throws in its nested query
    after [totalMinted] was assigned 5; the ENS client is called once and
    returns an empty page, which the guard of line 127 skips, so the
    snapshot and the cache get the subgraph's count 5 instead of the size
    0 of the returned page. *)
Theorem fallback_keeps_subgraph_count :
  let m' := machine (refresh alice_cfg alice_mounted half_answered_net) in
  requests m' = [SubgraphDomains "node:alice.eth" 100 "createdAt" "desc";
                 SubgraphNested "node:alice.eth" 100 "createdAt" "desc";
                 GetSubnames "alice.eth" "" "createdAt" "desc" 100]
  /\ ens_getSubnames half_answered_net "alice.eth" limit = Resolved (Some [])
  /\ react_state m' = mkMintStats 5 [] false None
  /\ localStorage m' !! "mintStats-alice.eth"%string
     = Some (Serialized (mkCacheEntry 5 [] 1000)).
Proof. repeat split; reflexivity. Qed.


(** ** Avatar URLs: occurrences and replacement *)

Lemma string_app_cons c (a b : string) : String c a +:+ b = String c (a +:+ b).
Proof. reflexivity. Qed.

Lemma string_app_nil (b : string) : "" +:+ b = b.
Proof. reflexivity. Qed.

Lemma string_app_assoc (a b c : string) : (a +:+ b) +:+ c = a +:+ (b +:+ c).
Proof.
  induction a as [|x a IH]; [reflexivity|].
  rewrite !string_app_cons, IH. reflexivity.
Qed.

Lemma strip_prefix_app pat rest : strip_prefix pat (pat +:+ rest) = Some rest.
Proof.
  induction pat as [|p pat IH]; [reflexivity|].
  rewrite string_app_cons. cbn [strip_prefix].
  rewrite Ascii.eqb_refl. exact IH.
Qed.

Lemma strip_prefix_Some pat s rest :
  strip_prefix pat s = Some rest -> s = pat +:+ rest.
Proof.
  revert s. induction pat as [|p pat IH]; intros s H; cbn [strip_prefix] in H.
  - injection H as ->. reflexivity.
  - destruct s as [|c s]; [discriminate|].
    destruct (Ascii.eqb_spec p c) as [->|]; [|discriminate].
    rewrite string_app_cons, (IH _ H). reflexivity.
Qed.

Lemma includes_unfold s pat :
  includes s pat =
  match strip_prefix pat s with
  | Some _ => true
  | None => match s with EmptyString => false | String _ s' => includes s' pat end
  end.
Proof. destruct s; reflexivity. Qed.

Lemma replace_unfold s pat rep :
  replace s pat rep =
  match strip_prefix pat s with
  | Some rest => rep +:+ rest
  | None =>
      match s with
      | EmptyString => EmptyString
      | String c s' => String c (replace s' pat rep)
      end
  end.
Proof. destruct s; reflexivity. Qed.

(** [includes] finds exactly the strings that contain the pattern. *)
Lemma includes_true_iff s pat :
  includes s pat = true <-> exists a b, s = a +:+ pat +:+ b.
Proof.
  split.
  - induction s as [|c s IH]; cbn [includes]; intros H.
    + destruct (strip_prefix pat "") as [rest|] eqn:E; [|discriminate].
      exists ""%string, rest. rewrite string_app_nil. apply strip_prefix_Some, E.
    + destruct (strip_prefix pat (String c s)) as [rest|] eqn:E.
      * exists ""%string, rest. rewrite string_app_nil. apply strip_prefix_Some, E.
      * destruct (IH H) as (a & b & ->). exists (String c a), b. reflexivity.
  - intros (a & b & ->). induction a as [|c a IH].
    + rewrite string_app_nil, includes_unfold, strip_prefix_app. reflexivity.
    + rewrite string_app_cons. cbn [includes]. rewrite IH.
      destruct (strip_prefix pat _); reflexivity.
Qed.

Lemma string_length_app (a b : string) :
  String.length (a +:+ b) = (String.length a + String.length b)%nat.
Proof.
  induction a as [|c a IH]; [reflexivity|].
  rewrite string_app_cons. cbn [String.length]. rewrite IH. reflexivity.
Qed.

(** Without an occurrence of the pattern, [replace] changes nothing. *)
Lemma replace_absent s pat rep :
  includes s pat = false -> replace s pat rep = s.
Proof.
  induction s as [|c s IH]; cbn [includes replace];
    destruct (strip_prefix pat _); try discriminate; [reflexivity|].
  intros H. rewrite (IH H). reflexivity.
Qed.

(** A string that lacks a pattern lacks every string containing it. *)
Lemma includes_false_within s inner a b :
  includes s inner = false -> includes s (a +:+ inner +:+ b) = false.
Proof.
  intros H. destruct (includes s (a +:+ inner +:+ b)) eqn:E; [|reflexivity].
  apply includes_true_iff in E as (x & y & ->).
  assert (includes (x +:+ (a +:+ inner +:+ b) +:+ y) inner = true) as Hin.
  { apply includes_true_iff. exists (x +:+ a), (b +:+ y).
    rewrite !string_app_assoc. reflexivity. }
  congruence.
Qed.

(** [replace] rewrites the first occurrence: the text before it and the
    text after it are kept. *)
Lemma replace_first_occurrence pre pat rest rep :
  (forall a b, pre +:+ pat +:+ rest = a +:+ pat +:+ b ->
               (String.length pre <= String.length a)%nat) ->
  replace (pre +:+ pat +:+ rest) pat rep = pre +:+ rep +:+ rest.
Proof.
  induction pre as [|c pre IH]; intros Hfirst.
  - rewrite !string_app_nil, replace_unfold, strip_prefix_app. reflexivity.
  - rewrite !string_app_cons, replace_unfold.
    destruct (strip_prefix pat (String c (pre +:+ pat +:+ rest))) as [r|] eqn:E.
    + apply strip_prefix_Some in E.
      specialize (Hfirst ""%string r). rewrite string_app_nil in Hfirst.
      specialize (Hfirst E). cbn [String.length] in Hfirst. lia.
    + rewrite IH; [reflexivity|].
      intros a b Hab.
      specialize (Hfirst (String c a) b). rewrite !string_app_cons in Hfirst.
      rewrite Hab in Hfirst. specialize (Hfirst eq_refl).
      cbn [String.length] in Hfirst. lia.
Qed.

(** The replacement text brings no occurrence of ["euc.li"] with it. *)
Lemma includes_metadata_avatar rest :
  includes (metadata_avatar +:+ rest) "euc.li" = includes rest "euc.li".
Proof. reflexivity. Qed.

(** X1. [getSafeAvatarUrl] gives [undefined] for an absent or empty
    URL, and gives back unchanged every other URL in which
    ["https://euc.li"] does not occur, also when the URL mentions
    [euc.li] under another scheme. *)
Theorem getSafeAvatarUrl_keeps_other_urls :
  getSafeAvatarUrl None = None
  /\ getSafeAvatarUrl (Some ""%string) = None
  /\ forall url,
       url <> ""%string ->
       includes url "https://euc.li" = false ->
       getSafeAvatarUrl (Some url) = Some url.
Proof.
  split; [reflexivity|]. split; [reflexivity|].
  intros url Hne Habsent. unfold getSafeAvatarUrl.
  destruct url as [|c url]; [congruence|]. cbn [truthy_string negb].
  destruct (includes (String c url) "euc.li"); [|reflexivity].
  rewrite (replace_absent _ _ _ Habsent). reflexivity.
Qed.

(** X2. In a URL that contains ["https://euc.li"], [getSafeAvatarUrl]
    replaces the first occurrence by the ENS metadata avatar address and
    keeps the text before and after it, later occurrences included. *)
Theorem getSafeAvatarUrl_rewrites_first_occurrence pre rest :
  (forall a b,
     pre +:+ "https://euc.li" +:+ rest = a +:+ "https://euc.li" +:+ b ->
     (String.length pre <= String.length a)%nat) ->
  getSafeAvatarUrl (Some (pre +:+ "https://euc.li" +:+ rest)) =
  Some (pre +:+ "https://metadata.ens.domains/mainnet/avatar" +:+ rest).
Proof.
  intros Hfirst. unfold getSafeAvatarUrl.
  assert (Hne : truthy_string (pre +:+ "https://euc.li" +:+ rest) = true).
  { destruct pre; reflexivity. }
  rewrite Hne. cbn [negb].
  assert (Hin : includes (pre +:+ "https://euc.li" +:+ rest) "euc.li" = true).
  { apply includes_true_iff. exists (pre +:+ "https://"), rest.
    rewrite string_app_assoc. reflexivity. }
  rewrite Hin, (replace_first_occurrence _ _ _ _ Hfirst). reflexivity.
Qed.

(** X3. When the text after a leading ["https://euc.li"] does not
    mention [euc.li], the rewritten URL does not mention it either, and
    [getSafeAvatarUrl] gives it back unchanged: a second pass changes
    nothing. *)
Theorem getSafeAvatarUrl_rewritten_is_stable rest :
  includes rest "euc.li" = false ->
  let once := getSafeAvatarUrl (Some ("https://euc.li" +:+ rest)) in
  once = Some ("https://metadata.ens.domains/mainnet/avatar" +:+ rest)
  /\ includes ("https://metadata.ens.domains/mainnet/avatar" +:+ rest) "euc.li"
     = false
  /\ getSafeAvatarUrl once = once.
Proof.
  intros Hrest once. subst once.
  assert (Hmeta : includes (metadata_avatar +:+ rest) "euc.li" = false).
  { rewrite includes_metadata_avatar. exact Hrest. }
  assert (Honce : getSafeAvatarUrl (Some ("https://euc.li" +:+ rest)) =
                  Some (metadata_avatar +:+ rest)).
  { unfold getSafeAvatarUrl. cbn [truthy_string negb].
    rewrite string_app_cons.
    assert (includes ("https://euc.li" +:+ rest) "euc.li" = true) as Hin.
    { apply includes_true_iff. exists "https://"%string, rest. reflexivity. }
    rewrite string_app_cons in Hin. rewrite Hin.
    rewrite <- string_app_cons, replace_unfold, strip_prefix_app. reflexivity. }
  rewrite Honce. split; [reflexivity|]. split; [exact Hmeta|].
  unfold getSafeAvatarUrl.
  change (truthy_string (metadata_avatar +:+ rest)) with true. cbn [negb].
  rewrite Hmeta. reflexivity.
Qed.

(** ** More about one cycle *)

(** On L1 the adapters never throw: both [catch] blocks only log. *)
Lemma adapters_L1_completes cfg net fr m :
  listingType cfg = L1 ->
  exists fr' m', adapters cfg net fr m = (Normal tt, fr', m').
Proof.
  intros HL1. rewrite adapters_L1, subgraph_query_run by assumption.
  cbv zeta.
  repeat split_match; rewrite ?ens_client_fallback_run; eauto.
Qed.

(** What one cycle does to the cache: nothing, or one write of a
    positive count under the key of the listed name, stamped with the
    current time. *)
Lemma fetchMintStats_cache_step cfg stats net m :
  localStorage (fetchMintStats cfg stats net m) = localStorage m
  \/ exists t r,
       t > 0
       /\ localStorage (fetchMintStats cfg stats net m) =
          <[cache_key (listedName cfg) :=
              Serialized (mkCacheEntry t r (date_now net))]> (localStorage m).
Proof.
  destruct (config_ready_dec cfg) as [Hready|Hnot].
  2:{ left. rewrite (fetchMintStats_skip _ _ _ _ Hnot). reflexivity. }
  pose proof (fetchMintStats_outcome cfg stats net m Hready) as Hout.
  cbv zeta in Hout.
  destruct (adapters cfg net _ _) as [[[[]|] fr] m1]; destruct Hout as [_ ->].
  - destruct (Z.gtb_spec (var_totalMinted fr) 0) as [Hpos|_]; [|left; reflexivity].
    right. exists (var_totalMinted fr), (var_recentMints fr).
    split; [lia|reflexivity].
  - left. reflexivity.
Qed.

(** X4. An L1 cycle sends between one and three requests and never the
    indexer request: the ENS client call alone when the name cannot be
    normalised, otherwise the subgraph query, possibly followed by the
    nested query, possibly followed by the ENS client call as the last
    request. *)
Theorem l1_cycle_requests cfg stats net m :
  config_ready cfg ->
  listingType cfg = L1 ->
  exists new,
    requests (fetchMintStats cfg stats net m) = requests m ++ new
    /\ match namehash_normalize net (listedName cfg) with
       | None => new = [req_subnames cfg]
       | Some node =>
           new = [req_domains node]
           \/ new = [req_domains node; req_subnames cfg]
           \/ new = [req_domains node; req_nested node]
           \/ new = [req_domains node; req_nested node; req_subnames cfg]
       end.
Proof.
  intros Hready HL1.
  rewrite fetchMintStats_eq, adapters_L1, subgraph_query_run by assumption.
  cbv zeta.
  destruct (namehash_normalize net (listedName cfg)) as [node|].
  2:{ rewrite ens_client_fallback_run. autorewrite with machine. eauto. }
  destruct (subgraph_domains net node limit) as [data|].
  2:{ rewrite ens_client_fallback_run. autorewrite with machine.
      rewrite <- app_assoc. eauto 6. }
  destruct (corrective_needed _).
  2:{ autorewrite with machine. eauto 6. }
  destruct (subgraph_nested net node limit) as [nested|].
  - autorewrite with machine. rewrite <- app_assoc. eauto 8.
  - rewrite ens_client_fallback_run. autorewrite with machine.
    rewrite <- !app_assoc. eauto 8.
Qed.

(** ** More about sessions *)

(** The cache through a session: keys other than the one of the listed
    name keep their value, and that key holds what it held at the start
    or a record with a positive count stamped by one of the cycles. *)
Lemma session_cache cfg h cycles :
  (forall k, k <> cache_key (listedName cfg) ->
     localStorage (machine (foldl (refresh cfg) h cycles)) !! k =
     localStorage (machine h) !! k)
  /\ (localStorage (machine (foldl (refresh cfg) h cycles))
        !! cache_key (listedName cfg) =
      localStorage (machine h) !! cache_key (listedName cfg)
      \/ exists e net,
           localStorage (machine (foldl (refresh cfg) h cycles))
             !! cache_key (listedName cfg) = Some (Serialized e)
           /\ cached_totalMinted e > 0
           /\ net ∈ cycles
           /\ timestamp e = date_now net).
Proof.
  revert h. induction cycles as [|net cycles IH]; intros h; cbn [foldl].
  - split; [reflexivity|left; reflexivity].
  - destruct (IH (refresh cfg h net)) as [Hother Hkey].
    assert (Hstep := fetchMintStats_cache_step cfg (closure_stats h) net (machine h)).
    change (fetchMintStats cfg (closure_stats h) net (machine h))
      with (machine (refresh cfg h net)) in Hstep.
    split.
    + intros k Hk. rewrite (Hother k Hk).
      destruct Hstep as [->|(t & r & _ & ->)]; [reflexivity|].
      apply lookup_insert_ne. congruence.
    + destruct Hkey as [Hkey|(e & net' & He & Hpos & Hin & Hts)].
      * rewrite Hkey.
        destruct Hstep as [->|(t & r & Hpos & ->)]; [left; reflexivity|].
        right. exists (mkCacheEntry t r (date_now net)), net.
        rewrite lookup_insert_eq.
        repeat split; [exact Hpos|left].
      * right. exists e, net'. repeat split; try assumption. right. exact Hin.
Qed.

(** X6. Through a whole session the hook writes [localStorage] only
    under the key of its listed name: every other key keeps its value,
    and that key holds either what it held at mount or a record with a
    positive count stamped with the clock of one of the cycles; the hook
    never removes an entry and never stores a zero count. *)
Theorem session_cache_discipline cfg storage now cycles :
  let final := localStorage (machine (useMintStats cfg storage now cycles)) in
  (forall k, k <> cache_key (listedName cfg) -> final !! k = storage !! k)
  /\ (final !! cache_key (listedName cfg) = storage !! cache_key (listedName cfg)
      \/ exists e net,
           final !! cache_key (listedName cfg) = Some (Serialized e)
           /\ cached_totalMinted e > 0
           /\ net ∈ cycles
           /\ timestamp e = date_now net).
Proof.
  intros final. subst final. unfold useMintStats.
  exact (session_cache cfg (useMintStats_mount cfg storage now) cycles).
Qed.

(** ** A refused cache write *)

(** X5. On an L1 listing, whatever the network answers, a cycle ends
    with an error only when [localStorage] refuses the cache write: the
    error is then the fixed message, the count and names shown before
    are kept and nothing is stored. This happens exactly when the
    cycle would have shown a positive count; with a count that is not
    positive no write is attempted and the refusing store makes no
    difference. On a store that accepts the write an L1 cycle never ends
    with an error. *)
Theorem l1_error_only_on_refused_write accepted cfg stats net m :
  config_ready cfg ->
  listingType cfg = L1 ->
  let m' := fetchMintStats_with accepted cfg stats net m in
  let wanted := totalMinted (react_state (fetchMintStats cfg stats net m)) in
  (accepted = true -> error (react_state m') = None)
  /\ (error (react_state m') <> None ->
      accepted = false
      /\ wanted > 0
      /\ react_state m' =
           mkMintStats (totalMinted (react_state m)) (recentMints (react_state m))
             false (Some "Failed to fetch mint statistics"%string)
      /\ localStorage m' = localStorage m)
  /\ (accepted = false -> wanted > 0 -> error (react_state m') <> None)
  /\ (accepted = false -> wanted <= 0 -> m' = fetchMintStats cfg stats net m).
Proof.
  intros Hready HL1 m' wanted. subst m' wanted.
  unfold fetchMintStats.
  rewrite !fetchMintStats_with_eq by assumption.
  destruct (adapters_L1_completes cfg net (mkFrame 0 []) (started stats m) HL1)
    as (fr & m1 & Hrun).
  pose proof (adapters_static cfg net (mkFrame 0 []) (started stats m))
    as (Hs & _ & Hl).
  rewrite Hrun in Hs, Hl |- *. cbn [snd] in Hs, Hl.
  cbn [negb]. rewrite andb_false_r.
  autorewrite with machine. cbn [fresh_stats totalMinted].
  destruct accepted; cbn [negb]; rewrite ?andb_false_r, ?andb_true_r.
  - autorewrite with machine. cbn [fresh_stats error].
    repeat split; try discriminate; try congruence.
  - destruct (Z.gtb_spec (var_totalMinted fr) 0) as [Hpos|Hle].
    + autorewrite with machine. unfold show_failure. cbn [error].
      rewrite Hs, Hl. autorewrite with machine.
      repeat split; try discriminate; try lia.
    + unfold cached. rewrite (gtb_nonpos _ Hle).
      autorewrite with machine. cbn [fresh_stats error].
      repeat split; try discriminate; try congruence; try lia.
Qed.

(** ** Repeating a cycle *)

(** X7. When a cycle completes, the snapshot it sets is a function of
    the configuration and the replies alone: the snapshot shown before,
    the renders, the cache content and the requests sent so far have no
    influence on it. *)
Theorem completed_cycle_is_memoryless cfg stats net m m2 :
  config_ready cfg ->
  error (react_state (fetchMintStats cfg stats net m)) = None ->
  react_state (fetchMintStats cfg stats net m2) =
  react_state (fetchMintStats cfg stats net m).
Proof.
  intros Hready Herr.
  pose proof (fetchMintStats_outcome cfg stats net m Hready) as Hout.
  pose proof (fetchMintStats_outcome cfg stats net m2 Hready) as Hout2.
  cbv zeta in Hout, Hout2.
  pose proof (adapters_blind cfg net (mkFrame 0 []) (started stats m)
                (started stats m2)) as Hsame.
  destruct (adapters cfg net (mkFrame 0 []) (started stats m))
    as [[c fr] m1].
  destruct (adapters cfg net (mkFrame 0 []) (started stats m2))
    as [[c2 fr2] m3].
  cbn [fst] in Hsame. injection Hsame as <- <-.
  destruct c as [[]|].
  - destruct Hout as [-> _], Hout2 as [-> _]. reflexivity.
  - destruct Hout as [Hs _]. rewrite Hs in Herr. discriminate Herr.
Qed.

(** X8. Running the same cycle a second time (same captured [stats],
    same replies, same clock) leaves the snapshot and the cache as the
    first run left them; only the renders and the request log grow. *)
Theorem repeated_cycle_is_idempotent cfg stats net m :
  let m1 := fetchMintStats cfg stats net m in
  let m2 := fetchMintStats cfg stats net m1 in
  react_state m2 = react_state m1 /\ localStorage m2 = localStorage m1.
Proof.
  intros m1 m2. subst m1 m2.
  destruct (config_ready_dec cfg) as [Hready|Hnot].
  2:{ rewrite !(fetchMintStats_skip _ _ _ _ Hnot). split; reflexivity. }
  pose proof (fetchMintStats_outcome cfg stats net m Hready) as Hout.
  pose proof (fetchMintStats_outcome cfg stats net
                (fetchMintStats cfg stats net m) Hready) as Hout2.
  cbv zeta in Hout, Hout2.
  pose proof (adapters_blind cfg net (mkFrame 0 []) (started stats m)
                (started stats (fetchMintStats cfg stats net m))) as Hsame.
  destruct (adapters cfg net (mkFrame 0 []) (started stats m))
    as [[c fr] m1].
  destruct (adapters cfg net (mkFrame 0 [])
              (started stats (fetchMintStats cfg stats net m)))
    as [[c2 fr2] m3].
  cbn [fst] in Hsame. injection Hsame as <- <-.
  destruct c as [[]|]; destruct Hout as [Hs Hl], Hout2 as [Hs2 Hl2].
  - rewrite Hs2, Hs, Hl2, Hl. split; [reflexivity|].
    destruct (var_totalMinted fr >? 0); [|reflexivity].
    apply insert_insert_eq.
  - rewrite Hs2, Hs, Hl2, Hl. split; reflexivity.
Qed.

(** ** The indexer and the ENS client answering *)

(** X9. On an L2 listing, when the indexer answers, the snapshot becomes
    [{totalItems or 0, the names of the first 100 items, isLoading:
    false, error: null}] whatever was shown before; a missing
    [totalItems] counts as 0 and missing [items] as no name, and the
    cache entry is written exactly when the count is positive. *)
Theorem indexer_success_adopted cfg stats net m data :
  config_ready cfg ->
  listingType cfg = L2 ->
  indexer_nodes net (listedName cfg) limit = Resolved data ->
  let total := default 0 (totalItems data) in
  let names := match items data with Some l => slice_names l | None => [] end in
  let m' := fetchMintStats cfg stats net m in
  react_state m' = mkMintStats total names false None
  /\ (length names <= 100)%nat
  /\ localStorage m' =
       (if total >? 0
        then <[cache_key (listedName cfg) :=
                 Serialized (mkCacheEntry total names (date_now net))]>
               (localStorage m)
        else localStorage m).
Proof.
  intros Hready HL2 Hreply total names m'.
  pose proof (fetchMintStats_outcome cfg stats net m Hready) as Hout.
  fold m' in Hout. cbv zeta in Hout.
  rewrite adapters_L2, indexer_query_run, Hreply in Hout by assumption.
  assert (Htotal : match totalItems data with
                   | Some z => if truthy_number z then z else 0
                   | None => 0
                   end = total).
  { subst total. destruct (totalItems data) as [z|]; [|reflexivity].
    unfold truthy_number. cbn [default].
    destruct (Z.eqb_spec z 0); subst; reflexivity. }
  rewrite Htotal in Hout. fold names in Hout.
  cbn [var_totalMinted var_recentMints] in Hout.
  destruct Hout as [Hs Hl]. split; [exact Hs|]. split; [|exact Hl].
  subst names. destruct (items data); [apply slice_names_length|cbn; lia].
Qed.

(** X10. On an L1 listing, when the subgraph query fails before anything
    is read and the ENS client answers with a page, the count shown is
    the length of the whole page while [recentMints] holds only its first
    100 names; the cache entry is written exactly when the page is not
    empty, and the ENS client call is the last request of the cycle. *)
Theorem ens_page_adopted cfg stats net m page :
  config_ready cfg ->
  listingType cfg = L1 ->
  (namehash_normalize net (listedName cfg) = None
   \/ exists node, namehash_normalize net (listedName cfg) = Some node
                   /\ subgraph_domains net node limit = Rejected) ->
  ens_getSubnames net (listedName cfg) limit = Resolved (Some page) ->
  let m' := fetchMintStats cfg stats net m in
  totalMinted (react_state m') = Z.of_nat (length page)
  /\ recentMints (react_state m') = map name (take 100 page)
  /\ length (recentMints (react_state m')) = Nat.min 100 (length page)
  /\ isLoading (react_state m') = false
  /\ error (react_state m') = None
  /\ localStorage m' =
       match page with
       | [] => localStorage m
       | _ :: _ =>
           <[cache_key (listedName cfg) :=
               Serialized (mkCacheEntry (Z.of_nat (length page))
                             (map name (take 100 page)) (date_now net))]>
             (localStorage m)
       end
  /\ last (requests m') = Some (req_subnames cfg).
Proof.
  intros Hready HL1 Hgraph Hens m'.
  assert (Hlen : length (map name (take 100 page)) = Nat.min 100 (length page)).
  { rewrite length_map, length_take. reflexivity. }
  assert (Hreq : last (requests m') = Some (req_subnames cfg)).
  { subst m'.
    rewrite fetchMintStats_eq, adapters_L1, subgraph_query_run by assumption.
    destruct Hgraph as [Hnode|(node & Hnode & Hreply)];
      rewrite Hnode, ?Hreply, ens_client_fallback_run;
      autorewrite with machine; apply last_snoc. }
  pose proof (fetchMintStats_outcome cfg stats net m Hready) as Hout.
  fold m' in Hout. cbv zeta in Hout.
  rewrite adapters_L1, subgraph_query_run in Hout by assumption.
  destruct Hgraph as [Hnode|(node & Hnode & Hreply)];
    rewrite Hnode, ?Hreply, ens_client_fallback_run, Hens in Hout;
    (destruct page as [|p page];
     [ cbn [length Nat.ltb Nat.leb var_totalMinted var_recentMints] in Hout;
       destruct Hout as [Hs Hl]; rewrite Hs, Hl;
       repeat split; try reflexivity; exact Hreq
     | change (0 <? length (p :: page))%nat with true in Hout;
       cbv iota in Hout;
       cbn [var_totalMinted var_recentMints] in Hout;
       destruct Hout as [Hs Hl]; rewrite Hs, Hl;
       rewrite gtb_pos by (cbn [length]; lia);
       repeat split; try reflexivity; [exact Hlen|exact Hreq] ]).
Qed.

(** ** Loading through a session *)

(** X11. A hook seeded from a cache record younger than one hour whose
    count is not zero never shows [isLoading = true]: not at mount, not
    while a cycle is in flight, not after a failure, not even when a
    later cycle brings the count down to zero. *)
Theorem seeded_hook_never_loading cfg storage now cycles e :
  truthy_string (listedName cfg) = true ->
  storage !! cache_key (listedName cfg) = Some (Serialized e) ->
  now - timestamp e < 3600000 ->
  cached_totalMinted e <> 0 ->
  Forall (fun s => isLoading s = false)
    (renders (machine (useMintStats cfg storage now cycles))).
Proof.
  intros Hname Hstored Hfresh Hcount. unfold useMintStats.
  assert (Hinit : useState_init (listedName cfg) storage now =
    mkMintStats (cached_totalMinted e) (cached_recentMints e) false None).
  { rewrite (useState_init_stored _ _ e now Hname Hstored).
    destruct (Z.ltb_spec (now - timestamp e) 3600000); [reflexivity|lia]. }
  apply seeded_session_never_loading; unfold useMintStats_mount;
    cbn [closure_stats machine react_state renders]; rewrite Hinit.
  - exact Hcount.
  - reflexivity.
  - apply Forall_singleton. reflexivity.
Qed.

(** X12. A hook mounted without a usable cache record captures a zero
    count for good, so in every cycle of its session, however many came
    before and whatever count is on display, the first thing rendered is
    the current snapshot with [isLoading = true] and the error cleared. *)
Theorem cold_hook_shows_loading_every_cycle cfg storage now cycles net :
  config_ready cfg ->
  totalMinted (useState_init (listedName cfg) storage now) = 0 ->
  let h := useMintStats cfg storage now cycles in
  renders (machine (refresh cfg h net)) !! length (renders (machine h)) =
  Some (mkMintStats (totalMinted (react_state (machine h)))
          (recentMints (react_state (machine h))) true None).
Proof.
  intros Hready Hzero h.
  apply stale_closure_shows_loading; [exact Hready|].
  subst h. rewrite closure_stats_useMintStats. exact Hzero.
Qed.

(** X13. Once at least one cycle has run on a configured hook, the
    snapshot at rest has [isLoading = false], whether the last cycle
    succeeded or failed. *)
Theorem hook_at_rest_not_loading cfg storage now cycles :
  config_ready cfg ->
  cycles <> [] ->
  isLoading (react_state (machine (useMintStats cfg storage now cycles))) = false.
Proof.
  intros Hready Hne. unfold useMintStats.
  destruct (exists_last Hne) as (front & net & ->).
  rewrite foldl_app. cbn [foldl]. unfold refresh at 1. cbn [machine].
  apply cycle_ends_not_loading, Hready.
Qed.

(** ** Cache keys *)

(** The cache key determines the listed name. *)
Lemma cache_key_inj a b : cache_key a = cache_key b -> a = b.
Proof. unfold cache_key. apply (inj (String.app "mintStats-")). Qed.

(** X15. Hooks for different listed names do not share cache entries:
    whatever a session for one name does, the state a hook for another
    name would start from is the same before and after. *)
Theorem other_name_unaffected cfg storage now cycles other later :
  other <> listedName cfg ->
  useState_init other
    (localStorage (machine (useMintStats cfg storage now cycles))) later =
  useState_init other storage later.
Proof.
  intros Hother. unfold useState_init.
  destruct (session_cache cfg (useMintStats_mount cfg storage now) cycles)
    as [Hkeys _].
  unfold useMintStats. rewrite Hkeys; [reflexivity|].
  intros Heq. apply Hother, cache_key_inj, Heq.
Qed.

(** ** A hook without configuration *)

(** X16. While the chain id or the listed name is missing, no cycle does
    anything: the whole session sends no request, renders nothing after
    the initial snapshot and leaves the cache alone. The hook then stays
    on its initial snapshot, which without a listed name is the empty
    loading state. *)
Theorem unconfigured_hook_stays_idle cfg storage now cycles :
  ~ config_ready cfg ->
  let init := useState_init (listedName cfg) storage now in
  machine (useMintStats cfg storage now cycles) = mkMachine init [init] storage []
  /\ (truthy_string (listedName cfg) = false -> init = empty_loading).
Proof.
  intros Hnot init. split.
  - unfold useMintStats.
    assert (Hidle : forall h, foldl (refresh cfg) h cycles = h).
    { induction cycles as [|net cycles IH]; intros h; cbn [foldl];
        [reflexivity|].
      rewrite IH. unfold refresh.
      rewrite (fetchMintStats_skip _ _ _ _ Hnot). destruct h; reflexivity. }
    rewrite Hidle. reflexivity.
  - intros Hname. subst init. unfold useState_init. rewrite Hname. reflexivity.
Qed.

(** ** The limit through a session *)

(** A property of the current snapshot that loading keeps and every
    cycle of the session keeps holds of everything the session renders. *)
Lemma session_invariant (P : MintStats -> Prop) cfg h (cycles : list Network) :
  (forall s, P s -> P (show_loading s)) ->
  (forall stats net m,
     net ∈ cycles -> P (react_state m) ->
     P (react_state (fetchMintStats cfg stats net m))) ->
  P (react_state (machine h)) ->
  Forall P (renders (machine h)) ->
  Forall P (renders (machine (foldl (refresh cfg) h cycles))).
Proof.
  intros Hload. revert h.
  induction cycles as [|net cycles IH]; intros h Hstep Hcur Hall; cbn [foldl];
    [exact Hall|].
  assert (Hnext : P (react_state (machine (refresh cfg h net)))).
  { unfold refresh. cbn [machine]. apply Hstep; [left|exact Hcur]. }
  apply IH.
  - intros stats net' m Hin. apply Hstep. right. exact Hin.
  - exact Hnext.
  - unfold refresh in *. cbn [machine] in *.
    rewrite fetchMintStats_renders.
    apply Forall_app; split; [exact Hall|].
    destruct (config_ready_dec cfg); [|constructor].
    apply Forall_app; split; [|apply Forall_singleton, Hnext].
    destruct (totalMinted (closure_stats h) =? 0); [|constructor].
    apply Forall_singleton, Hload, Hcur.
Qed.

(** On L2 a cycle keeps the limit whatever the network answers. *)
Lemma l2_cycle_within_limit cfg stats net m :
  listingType cfg = L2 ->
  within_limit (react_state m) ->
  within_limit (react_state (fetchMintStats cfg stats net m)).
Proof.
  intros HL2 Hcur.
  destruct (config_ready_dec cfg) as [Hready|Hnot].
  2:{ rewrite (fetchMintStats_skip _ _ _ _ Hnot). exact Hcur. }
  pose proof (fetchMintStats_outcome cfg stats net m Hready) as Hout.
  cbv zeta in Hout.
  rewrite adapters_L2, indexer_query_run in Hout by assumption.
  destruct (indexer_nodes net (listedName cfg) limit) as [data|];
    destruct Hout as [-> _]; [|exact Hcur].
  unfold within_limit. cbn [fresh_stats recentMints var_recentMints].
  destruct (items data); [apply slice_names_length|cbn; lia].
Qed.

(** X17. Through a whole session every rendered snapshot has at most
    100 recent mints, provided the initial snapshot has and, on an L1
    listing, every subgraph reply of the session holds at most the 100
    entries requested; on an L2 listing nothing is asked of the network,
    because the indexer items are cut to 100 by the code. *)
Theorem session_recentMints_within_limit cfg storage now (cycles : list Network) :
  within_limit (useState_init (listedName cfg) storage now) ->
  (listingType cfg = L1 ->
   forall net, net ∈ cycles ->
     (forall node data ds,
        subgraph_domains net node limit = Resolved data ->
        graph_domains data = Some ds -> (length ds <= 100)%nat)
     /\ (forall node data l,
          subgraph_nested net node limit = Resolved data ->
          graph_nested_subdomains data = Some l -> (length l <= 100)%nat)) ->
  Forall within_limit (renders (machine (useMintStats cfg storage now cycles))).
Proof.
  intros Hinit Hnets. unfold useMintStats.
  apply session_invariant.
  - intros s Hs. exact Hs.
  - intros stats net m Hin Hcur.
    destruct (listingType cfg) eqn:Htype.
    + destruct (Hnets eq_refl net Hin) as [Hcap1 Hcap2].
      apply kept_within_limit; assumption.
    + apply l2_cycle_within_limit; assumption.
  - exact Hinit.
  - apply Forall_singleton. exact Hinit.
Qed.

(** ** The names of the first subgraph reply *)




(** ** Further scenarios *)

(** X1 on a URL that mentions [euc.li] under another scheme. *)
Lemma getSafeAvatarUrl_keeps_http :
  getSafeAvatarUrl (Some "http://euc.li/nick.eth"%string)
  = Some "http://euc.li/nick.eth"%string.
Proof.
  apply (proj2 (proj2 getSafeAvatarUrl_keeps_other_urls));
    [discriminate|reflexivity].
Defined.

(** X2 on a URL with two occurrences: only the leading one is rewritten. *)
Lemma getSafeAvatarUrl_rewrites_leading :
  getSafeAvatarUrl (Some "https://euc.li/a?next=https://euc.li/b"%string)
  = Some "https://metadata.ens.domains/mainnet/avatar/a?next=https://euc.li/b"%string.
Proof.
  apply (getSafeAvatarUrl_rewrites_first_occurrence ""
           "/a?next=https://euc.li/b").
  intros a b _. cbn [String.length]. lia.
Defined.

(** X3 on a plain avatar address. *)
Lemma getSafeAvatarUrl_stable_nick :
  getSafeAvatarUrl (getSafeAvatarUrl (Some "https://euc.li/nick.eth"%string))
  = getSafeAvatarUrl (Some "https://euc.li/nick.eth"%string).
Proof.
  apply (getSafeAvatarUrl_rewritten_is_stable "/nick.eth"). reflexivity.
Defined.

(** X4 on the cycle with a corrective query. *)
Lemma l1_cycle_requests_alice :
  exists new,
    requests (fetchMintStats alice_cfg empty_loading corrected_net
                (machine alice_mounted)) = [] ++ new
    /\ (new = [req_domains "node:alice.eth"]
        \/ new = [req_domains "node:alice.eth"; req_subnames alice_cfg]
        \/ new = [req_domains "node:alice.eth"; req_nested "node:alice.eth"]
        \/ new = [req_domains "node:alice.eth"; req_nested "node:alice.eth";
                  req_subnames alice_cfg]).
Proof.
  apply (l1_cycle_requests alice_cfg empty_loading corrected_net
           (machine alice_mounted)); [split; reflexivity|reflexivity].
Defined.

(** X6 on that session and a key of another application. *)
Lemma session_cache_discipline_alice :
  localStorage (machine (useMintStats alice_cfg {[ "theme"%string := Malformed "dark" ]}
                           1000 [offline 2000; alice_net]))
    !! "theme"%string
  = Some (Malformed "dark").
Proof.
  rewrite (proj1 (session_cache_discipline alice_cfg
                    {[ "theme"%string := Malformed "dark" ]} 1000
                    [offline 2000; alice_net]) "theme"%string).
  - reflexivity.
  - vm_compute. discriminate.
Defined.

(** X7 on the first scenario, started from two different machines. *)
Lemma completed_cycle_is_memoryless_alice :
  react_state (fetchMintStats alice_cfg empty_loading alice_net (machine alice_seeded))
  = react_state (fetchMintStats alice_cfg empty_loading alice_net (machine alice_mounted)).
Proof.
  apply completed_cycle_is_memoryless; [split; reflexivity|reflexivity].
Defined.

(** X9 on an indexer that answers. *)
Lemma indexer_success_adopted_bob :
  let m' := machine (refresh bob_cfg bob_seeded bob_net) in
  react_state m' = mkMintStats 7 ["a.bob.eth"; "b.bob.eth"] false None
  /\ localStorage m' !! "mintStats-bob.eth"%string
     = Some (Serialized (mkCacheEntry 7 ["a.bob.eth"; "b.bob.eth"] 2000)).
Proof.
  destruct (indexer_success_adopted bob_cfg (closure_stats bob_seeded) bob_net
              (machine bob_seeded)
              (mkIndexerData (Some [mkSubname "a.bob.eth"; mkSubname "b.bob.eth"])
                 (Some 7)))
    as (Hstate & _ & Hstore).
  - split; reflexivity.
  - reflexivity.
  - reflexivity.
  - split; [exact Hstate|].
    change (fetchMintStats bob_cfg (closure_stats bob_seeded) bob_net
              (machine bob_seeded))
      with (machine (refresh bob_cfg bob_seeded bob_net)) in Hstore.
    rewrite Hstore. reflexivity.
Defined.

(** X10 on a page of 101 entries: the count is 101, the list has 100. *)
Lemma ens_page_adopted_alice :
  let m' := machine (refresh alice_cfg alice_mounted ens_page_net) in
  totalMinted (react_state m') = 101
  /\ length (recentMints (react_state m')) = 100%nat.
Proof.
  destruct (ens_page_adopted alice_cfg empty_loading ens_page_net
              (machine alice_mounted) long_page)
    as (Htotal & _ & Hlen & _).
  - split; reflexivity.
  - reflexivity.
  - right. exists "node:alice.eth"%string. split; reflexivity.
  - reflexivity.
  - split; [exact Htotal|exact Hlen].
Defined.

(** X11 on a seeded hook that goes offline, then gets an answer. *)
Lemma seeded_hook_never_loading_alice :
  Forall (fun s => isLoading s = false)
    (renders (machine (useMintStats alice_cfg
                         (cache_with "alice.eth" 42 ["a.alice.eth"]) 1000
                         [offline 2000; alice_net]))).
Proof.
  apply (seeded_hook_never_loading alice_cfg _ 1000 _
           (mkCacheEntry 42 ["a.alice.eth"] 0)).
  - reflexivity.
  - reflexivity.
  - reflexivity.
  - discriminate.
Defined.

(** X12 on a cold hook, in its third cycle. *)
Lemma cold_hook_shows_loading_alice :
  renders (machine (refresh alice_cfg
                      (useMintStats alice_cfg ∅ 1000 [alice_net; alice_net])
                      alice_net))
    !! 5%nat
  = Some (mkMintStats 3 ["x.alice.eth"; "y.alice.eth"] true None).
Proof.
  pose proof (cold_hook_shows_loading_every_cycle alice_cfg ∅ 1000
                [alice_net; alice_net] alice_net) as H.
  cbv zeta in H. apply H.
  - split; reflexivity.
  - reflexivity.
Defined.

(** X13 on a hook whose only cycle failed. *)
Lemma hook_at_rest_not_loading_bob :
  isLoading (react_state (machine (useMintStats bob_cfg ∅ 1000 [offline 2000])))
  = false.
Proof.
  apply hook_at_rest_not_loading; [split; reflexivity|discriminate].
Defined.

(** X15 on a session for [alice.eth] seen from [bob.eth]. *)
Lemma other_name_unaffected_bob :
  useState_init "bob.eth"
    (localStorage (machine (useMintStats alice_cfg
                              (cache_with "bob.eth" 10 ["a.bob.eth"]) 1000
                              [alice_net])))
    2000
  = mkMintStats 10 ["a.bob.eth"] false None.
Proof.
  rewrite (other_name_unaffected alice_cfg
             (cache_with "bob.eth" 10 ["a.bob.eth"]) 1000 [alice_net]
             "bob.eth" 2000).
  - reflexivity.
  - discriminate.
Defined.

(** X16 on a hook whose chain id is missing. *)
Lemma unconfigured_hook_stays_idle_alice :
  machine (useMintStats no_chain_cfg ∅ 1000 [alice_net; alice_net])
  = mkMachine empty_loading [empty_loading] ∅ [].
Proof.
  destruct (unconfigured_hook_stays_idle no_chain_cfg ∅ 1000
              [alice_net; alice_net]) as [Hidle _].
  - intros [Hchain _]. discriminate Hchain.
  - exact Hidle.
Defined.

(** X17 on a session of two answered cycles. *)
Lemma session_recentMints_within_limit_alice :
  Forall within_limit
    (renders (machine (useMintStats alice_cfg ∅ 1000 [alice_net; alice_net]))).
Proof.
  apply session_recentMints_within_limit.
  - change (0 <= 100)%nat. lia.
  - intros _ net Hin.
    assert (Hnet : net = alice_net).
    { apply elem_of_cons in Hin as [->|Hin]; [reflexivity|].
      apply list_elem_of_singleton in Hin. exact Hin. }
    subst net. split.
    + intros node data ds [= <-] [= <-]. cbn. lia.
    + intros node data l Hreply. discriminate Hreply.
Defined.


(** X5 on a seeded hook whose store refuses the write: the answer of
    the subgraph is lost, the 42 mints stay, the error is shown. *)
Lemma l1_error_only_on_refused_write_alice :
  react_state (fetchMintStats_with false alice_cfg (closure_stats alice_seeded)
                 alice_net (machine alice_seeded))
  = mkMintStats 42 ["a.alice.eth"] false (Some "Failed to fetch mint statistics").
Proof.
  destruct (l1_error_only_on_refused_write false alice_cfg
              (closure_stats alice_seeded) alice_net (machine alice_seeded))
    as (_ & Hkept & _).
  - split; reflexivity.
  - reflexivity.
  - destruct Hkept as (_ & _ & Hstate & _); [discriminate|exact Hstate].
Defined.

(** C10, amended, on the indexer reply without [totalItems]: the 10
    mints shown before are gone from the snapshot and remain only in the
    cache. *)
Lemma zero_result_replaces_snapshot_bob :
  let m' := machine (refresh bob_cfg bob_seeded uncounted_net) in
  totalMinted (react_state (machine bob_seeded)) = 10
  /\ react_state m' = mkMintStats 0 ["z.bob.eth"] false None
  /\ localStorage m' = cache_with "bob.eth" 10 ["a.bob.eth"].
Proof.
  destruct (zero_result_replaces_snapshot bob_cfg (closure_stats bob_seeded)
              uncounted_net (machine bob_seeded))
    as (Hstate & Hstore & _ & Hitems & _).
  - split; reflexivity.
  - left. reflexivity.
  - reflexivity.
  - reflexivity.
  - split; [reflexivity|]. split; [|exact Hstore].
    etransitivity; [exact Hstate|].
    rewrite (Hitems eq_refl _ eq_refl). reflexivity.
Defined.
